(** * Items API: validation and request handling of the Express/MongoDB service

    A shallow embedding of [src/app.js] (the items service) and of the list
    handler of the legacy products service ([GET /api/products]), followed by
    the properties of the validation-and-mapping layer.

    - JavaScript values are an inductive type; numbers are IEEE binary64
      floats (Rocq's primitive floats), objects are the lists of their own
      properties in [Object.keys] order.
    - A handler is a function from the environment (clock, store faults, ids
      the driver generates) and the state (the two collections, the number of
      clock readings, the log of store calls) to a response and a new state.
    - The MongoDB driver is outside the repository: its operations are
      modelled here as functions on lists of documents. *)

From Stdlib Require Import List String Ascii Bool Arith ZArith Lia.
From Stdlib Require Import Floats.
From Stdlib Require Uint63.
From Stdlib Require Import Sorted Permutation.
Import ListNotations.

#[local] Set Warnings "-register-all".

Local Open Scope string_scope.
Local Open Scope list_scope.

(** ** JavaScript values *)

(** An ObjectId, identified by its canonical 24-digit hexadecimal string
    (what [toHexString] and JSON serialization print). *)
Definition oid := string.

Inductive value : Type :=
| VUndefined
| VNull
| VBool (b : bool)
| VNum (x : float)
| VStr (s : string)
| VArr (xs : list value)
| VObj (props : list (string * value))
| VDate (t : Z)
| VObjectId (o : oid).

(** An object: its own enumerable properties, in [Object.keys] order. *)
Definition obj := list (string * value).

(** [typeof v] *)
Definition typeof (v : value) : string :=
  match v with
  | VUndefined => "undefined"
  | VBool _ => "boolean"
  | VNum _ => "number"
  | VStr _ => "string"
  | VNull | VArr _ | VObj _ | VDate _ | VObjectId _ => "object"
  end.

(** [o[k]]: the property's value, [undefined] when [o] has no such property. *)
Fixpoint get (k : string) (o : obj) : value :=
  match o with
  | [] => VUndefined
  | (k', v) :: rest => if String.eqb k k' then v else get k rest
  end.

(** [o[k] = v]: overwrite the property in place, or add it last. *)
Fixpoint set (k : string) (v : value) (o : obj) : obj :=
  match o with
  | [] => [(k, v)]
  | (k', v') :: rest =>
      if String.eqb k k' then (k, v) :: rest else (k', v') :: set k v rest
  end.

(** [Object.keys(o)] *)
Definition keys (o : obj) : list string := map fst o.

(** [l.includes(k)] on an array of strings *)
Definition includes (l : list string) (k : string) : bool :=
  existsb (String.eqb k) l.

(** [v === undefined], [v === null], [v === ""] *)
Definition is_undefined (v : value) : bool :=
  match v with VUndefined => true | _ => false end.

Definition is_null (v : value) : bool :=
  match v with VNull => true | _ => false end.

Definition is_empty_string (v : value) : bool :=
  match v with VStr s => String.eqb s "" | _ => false end.

(** [Number.isNaN(v)]: true only for the number NaN. *)
Definition Number_isNaN (v : value) : bool :=
  match v with VNum x => PrimFloat.is_nan x | _ => false end.

(** [v < y] for a number [v]. The validators reach this comparison only
    behind [typeof v !== "number" ||], so no other type is ever coerced. *)
Definition lt_number (v : value) (y : float) : bool :=
  match v with VNum x => PrimFloat.ltb x y | _ => false end.

(** [v ?? d] *)
Definition nullish (v d : value) : value :=
  match v with VUndefined | VNull => d | _ => v end.

(** Truthiness of a query-string parameter: absent and empty are falsy. *)
Definition truthy (p : option string) : bool :=
  match p with Some s => negb (String.eqb s "") | None => false end.

(** [s.split(sep)] for a one-character separator. *)
Fixpoint split (sep : ascii) (s : string) : list string :=
  match s with
  | EmptyString => [EmptyString]
  | String c rest =>
      if Ascii.eqb c sep then EmptyString :: split sep rest
      else match split sep rest with
           | [] => [String c EmptyString]
           | h :: t => String c h :: t
           end
  end.

(** [n] as a JavaScript number (array lengths). *)
Definition number_of_nat (n : nat) : float :=
  PrimFloat.of_uint63 (Uint63.of_Z (Z.of_nat n)).

(** ** Responses *)

Record response := mkResponse { status : nat; body : option value }.

(** [res.status(code).json(b)] *)
Definition json (code : nat) (b : value) : response := mkResponse code (Some b).

(** [res.status(code).send()] *)
Definition send (code : nat) : response := mkResponse code None.

Definition error_body (msg : string) : value := VObj [("error", VStr msg)].

(** ** Validators of app.js

    A validator of the source writes a 400 response and returns [false], or
    writes nothing and returns [true]. Here it returns [Some r] for the
    response it wrote, and [None] when it returned [true]. *)

Definition REQUIRED_FIELDS : list string := ["name"; "price"; "category"].

Definition validateRequiredFields (body : obj) : option response :=
  let missing :=
    filter (fun f => is_undefined (get f body) || is_null (get f body)
                     || is_empty_string (get f body)) REQUIRED_FIELDS in
  if (0 <? List.length missing)%nat then
    Some (json 400 (VObj [("error", VStr "Missing required fields");
                          ("missing", VArr (map VStr missing))]))
  else if negb (String.eqb (typeof (get "name" body)) "string") then
    Some (json 400 (error_body "Field 'name' must be a string"))
  else if negb (String.eqb (typeof (get "category" body)) "string") then
    Some (json 400 (error_body "Field 'category' must be a string"))
  else if negb (String.eqb (typeof (get "price" body)) "number")
          || Number_isNaN (get "price" body)
          || lt_number (get "price" body) 0%float then
    Some (json 400 (error_body "Field 'price' must be a non-negative number"))
  else None.

Definition allowed : list string := ["name"; "price"; "category"; "description"].

Definition validatePatchFields (body : obj) : option response :=
  let ks := keys body in
  if (List.length ks =? 0)%nat then
    Some (json 400 (error_body "PATCH body cannot be empty"))
  else
    let invalid := filter (fun k => negb (includes allowed k)) ks in
    if (0 <? List.length invalid)%nat then
      Some (json 400 (VObj [("error", VStr "Invalid fields in PATCH");
                            ("invalid", VArr (map VStr invalid));
                            ("allowed", VArr (map VStr allowed))]))
    else if negb (is_undefined (get "name" body))
            && negb (String.eqb (typeof (get "name" body)) "string") then
      Some (json 400 (error_body "Field 'name' must be a string"))
    else if negb (is_undefined (get "category" body))
            && negb (String.eqb (typeof (get "category" body)) "string") then
      Some (json 400 (error_body "Field 'category' must be a string"))
    else if negb (is_undefined (get "price" body))
            && (negb (String.eqb (typeof (get "price" body)) "number")
                || Number_isNaN (get "price" body)
                || lt_number (get "price" body) 0%float) then
      Some (json 400 (error_body "Field 'price' must be a non-negative number"))
    else if negb (is_undefined (get "description" body))
            && negb (String.eqb (typeof (get "description" body)) "string") then
      Some (json 400 (error_body "Field 'description' must be a string"))
    else None.

(** ** The document store

    The MongoDB driver and server are external to the repository. The model
    below gives the operations the handlers call the meaning the driver
    documents for the arguments the handlers pass: [_id] is unique in a
    collection, [$set] overwrites or adds the listed fields and leaves the
    others alone, [updateOne] and [deleteOne] act on the first match and
    report how many documents they matched or deleted, [find] filters, sorts
    and projects. Any call may fail (connection loss): it then throws. *)

Inductive collection : Type := Items | Products.

(** The filter object the list handlers build: at most the two terms
    [category: c] and [price: { $gte: b }]. *)
Record query_filter : Type :=
  mkFilter { category_eq : option string; price_gte : option float }.

Inductive call : Type :=
| Find (c : collection) (f : query_filter) (projection sortOption : obj)
| FindOne (c : collection) (o : oid)
| InsertOne (c : collection) (d : obj)
| UpdateOne (c : collection) (o : oid) (fields : obj)
| DeleteOne (c : collection) (o : oid).

(** What a request cannot control: the wall clock ([clock e n] is the [n]-th
    reading, in milliseconds), whether the [n]-th store call fails, and the
    identifier the driver generates during the [n]-th store call. *)
Record env : Type :=
  mkEnv { clock : nat -> Z; fault : nat -> bool; fresh : nat -> oid }.

Record state : Type :=
  mkState { items : list obj;      (* db.collection("items") *)
            products : list obj;   (* db.collection("products") *)
            reads : nat;           (* clock readings so far *)
            calls : list call }.   (* store calls so far, oldest first *)

Definition coll (c : collection) (st : state) : list obj :=
  match c with Items => items st | Products => products st end.

Definition with_coll (c : collection) (l : list obj) (st : state) : state :=
  match c with
  | Items => mkState l (products st) (reads st) (calls st)
  | Products => mkState (items st) l (reads st) (calls st)
  end.

Definition logged (c : call) (st : state) : state :=
  mkState (items st) (products st) (reads st) (calls st ++ [c]).

Definition ticked (st : state) : state :=
  mkState (items st) (products st) (S (reads st)) (calls st).

(** Computations of a handler body: they read the environment, thread the
    state, and return a value or throw. *)
Inductive outcome (A : Type) : Type :=
| Returned (a : A)
| Thrown.
Arguments Returned {A} a.
Arguments Thrown {A}.

Definition M (A : Type) : Type := env -> state -> outcome A * state.

Definition ret {A : Type} (a : A) : M A := fun _ st => (Returned a, st).

Definition bind {A B : Type} (m : M A) (k : A -> M B) : M B :=
  fun e st =>
    match m e st with
    | (Returned a, st') => k a e st'
    | (Thrown, st') => (Thrown, st')
    end.

Notation "x <- m ;; k" := (bind m (fun x => k))
  (at level 61, m at next level, right associativity).

(** [new Date()] *)
Definition new_Date : M value :=
  fun e st => (Returned (VDate (clock e (reads st))), ticked st).

(** A store call: logged, then it throws or runs. [k] receives the index of
    the call. *)
Definition attempt {A : Type} (c : call) (k : nat -> M A) : M A :=
  fun e st =>
    let n := List.length (calls st) in
    if fault e n then (Thrown, logged c st) else k n e (logged c st).

(** [{ _id: o }] matches [d]. *)
Definition has_id (o : oid) (d : obj) : bool :=
  match get "_id" d with VObjectId o' => String.eqb o o' | _ => false end.

(** [{ $set: fields }] applied to a document. *)
Definition apply_set (fields : obj) (d : obj) : obj :=
  fold_left (fun acc kv => set (fst kv) (snd kv) acc) fields d.

Fixpoint update_first (p : obj -> bool) (f : obj -> obj) (c : list obj)
  : list obj * nat :=
  match c with
  | [] => ([], 0)
  | d :: rest =>
      if p d then (f d :: rest, 1)
      else let (rest', n) := update_first p f rest in (d :: rest', n)
  end.

Fixpoint delete_first (p : obj -> bool) (c : list obj) : list obj * nat :=
  match c with
  | [] => ([], 0)
  | d :: rest =>
      if p d then (rest, 1)
      else let (rest', n) := delete_first p rest in (d :: rest', n)
  end.

(** A filter term [category: c] matches the string [c]; a term
    [price: { $gte: b }] matches the numbers [x] with [b <= x], and when [b]
    is NaN it matches NaN only. A field that holds an array matches a term
    when one of its elements does. *)
Definition eq_string (c : string) (v : value) : bool :=
  match v with VStr s => String.eqb s c | _ => false end.

Definition gte_number (b : float) (v : value) : bool :=
  match v with
  | VNum x => if PrimFloat.is_nan b then PrimFloat.is_nan x
              else PrimFloat.leb b x
  | _ => false
  end.

Definition field_matches (term : value -> bool) (v : value) : bool :=
  term v || match v with VArr xs => existsb term xs | _ => false end.

Definition matches (f : query_filter) (d : obj) : bool :=
  match category_eq f with
  | None => true
  | Some c => field_matches (eq_string c) (get "category" d)
  end
  &&
  match price_gte f with
  | None => true
  | Some b => field_matches (gte_number b) (get "price" d)
  end.

(** Ascending order of sort keys: classes of values in the store's order
    (absent and null, numbers, strings, objects, arrays, identifiers,
    booleans, dates), numbers by value with NaN first. Two keys of one
    other class are left in stored order (the handlers sort by [price]
    only, and the properties below concern numeric prices). *)
Definition class_rank (v : value) : nat :=
  match v with
  | VUndefined | VNull => 0
  | VNum _ => 1
  | VStr _ => 2
  | VObj _ => 3
  | VArr _ => 4
  | VObjectId _ => 5
  | VBool _ => 6
  | VDate _ => 7
  end.

Definition num_le (x y : float) : bool :=
  if PrimFloat.is_nan x then true
  else if PrimFloat.is_nan y then false
  else PrimFloat.leb x y.

Definition key_le (a b : value) : bool :=
  match a, b with
  | VNum x, VNum y => num_le x y
  | _, _ => (class_rank a <=? class_rank b)%nat
  end.

Fixpoint insert_by (le : obj -> obj -> bool) (d : obj) (l : list obj) : list obj :=
  match l with
  | [] => [d]
  | h :: t => if le d h then d :: l else h :: insert_by le d t
  end.

(** Stable insertion sort. *)
Definition sort_by (le : obj -> obj -> bool) (l : list obj) : list obj :=
  fold_right (insert_by le) [] l.

Definition is_number (n : float) (v : value) : bool :=
  match v with VNum x => PrimFloat.eqb x n | _ => false end.

(** [.sort(sortOption)]: [{ price: 1 }] sorts ascending by [price]; the only
    other option the handlers pass is [{}], which keeps the stored order. *)
Definition sort_docs (sortOption : obj) (l : list obj) : list obj :=
  if is_number 1%float (get "price" sortOption)
  then sort_by (fun a b => key_le (get "price" a) (get "price" b)) l
  else l.

(** An inclusion projection keeps the fields marked 1, and [_id] unless it
    is marked 0; the empty projection keeps everything. *)
Definition included (projection : obj) (k : string) : bool :=
  if String.eqb k "_id" then negb (is_number 0%float (get "_id" projection))
  else is_number 1%float (get k projection).

Definition project (projection : obj) (d : obj) : obj :=
  match projection with
  | [] => d
  | _ => List.filter (fun kv => included projection (fst kv)) d
  end.

(** [collection.find(f, { projection }).sort(sortOption).toArray()] *)
Definition find_toArray (c : collection) (f : query_filter)
    (projection sortOption : obj) : M (list obj) :=
  attempt (Find c f projection sortOption) (fun _ _ st =>
    (Returned (map (project projection)
                 (sort_docs sortOption (List.filter (matches f) (coll c st)))),
     st)).

(** [collection.findOne({ _id: o })] *)
Definition findOne (c : collection) (o : oid) : M (option obj) :=
  attempt (FindOne c o) (fun _ _ st =>
    (Returned (List.find (has_id o) (coll c st)), st)).

(** [collection.insertOne(d)], for a document without [_id]: the driver
    generates one; the unique index on [_id] refuses a duplicate. Returns
    [insertedId]. *)
Definition insertOne (c : collection) (d : obj) : M oid :=
  attempt (InsertOne c d) (fun n e st =>
    let o := fresh e n in
    if existsb (has_id o) (coll c st) then (Thrown, st)
    else (Returned o, with_coll c (coll c st ++ [("_id", VObjectId o) :: d]) st)).

(** [collection.updateOne({ _id: o }, { $set: fields })]; returns
    [matchedCount]. *)
Definition updateOne (c : collection) (o : oid) (fields : obj) : M nat :=
  attempt (UpdateOne c o fields) (fun _ _ st =>
    let (l, n) := update_first (has_id o) (apply_set fields) (coll c st) in
    (Returned n, with_coll c l st)).

(** [collection.deleteOne({ _id: o })]; returns [deletedCount]. *)
Definition deleteOne (c : collection) (o : oid) : M nat :=
  attempt (DeleteOne c o) (fun _ _ st =>
    let (l, n) := delete_first (has_id o) (coll c st) in
    (Returned n, with_coll c l st)).

(** No two stored documents share an [_id]. *)
Definition unique_ids (c : list obj) : Prop := NoDup (map (get "_id") c).

(** ** Requests *)

(** [req.query] of a list request: each parameter absent, or the string
    given for it. *)
Record query : Type :=
  mkQuery { category : option string; minPrice : option string;
            sort : option string; fields : option string }.

(** A handler: the response it sends and the state it leaves. *)
Definition handler : Type := env -> state -> response * state.

(** [handleServerError(res, err)] *)
Definition handleServerError : response :=
  json 500 (error_body "Internal server error").

(** [try { ... } catch (err) { return handleServerError(res, err); }] *)
Definition try_catch (m : M response) : handler :=
  fun e st =>
    match m e st with
    | (Returned r, st') => (r, st')
    | (Thrown, st') => (handleServerError, st')
    end.

(** Concrete instances of the driver's pure functions, for evaluating the
    handlers on examples: an identifier is valid when it is 24 hexadecimal
    digits, and the example identifiers are already in canonical form. *)
Definition is_hex_digit (c : ascii) : bool :=
  let n := nat_of_ascii c in
  ((48 <=? n) && (n <=? 57) || (97 <=? n) && (n <=? 102)
   || (65 <=? n) && (n <=? 70))%nat.

Definition hex24 (s : string) : bool :=
  (String.length s =? 24)%nat && forallb is_hex_digit (list_ascii_of_string s).

Definition same_id (s : string) : oid := s.

Definition number_10 (s : string) : float :=
  if String.eqb s "10" then 10%float else PrimFloat.nan.

(** Example data: three identifiers, an environment whose clock stands
    still and one whose clock advances a millisecond per reading (the store
    answers every call and the driver generates [id3] in both), two stored
    items, a third product, and a request body. *)
Definition id1 : oid := "65a1b2c3d4e5f6a7b8c9d0e1".
Definition id2 : oid := "65a1b2c3d4e5f6a7b8c9d0e2".
Definition id3 : oid := "65a1b2c3d4e5f6a7b8c9d0e3".

Definition steady : env :=
  mkEnv (fun _ => 1767225600000%Z) (fun _ => false) (fun _ => id3).

Definition ticking : env :=
  mkEnv (fun n => (1767225600000 + Z.of_nat n)%Z) (fun _ => false)
    (fun _ => id3).

Definition hammer : obj :=
  [("_id", VObjectId id1); ("name", VStr "hammer"); ("price", VNum 25%float);
   ("category", VStr "tools"); ("description", VStr "");
   ("createdAt", VDate 1767000000000%Z); ("updatedAt", VDate 1767000000000%Z)].

Definition ball : obj :=
  [("_id", VObjectId id2); ("name", VStr "ball"); ("price", VNum 5%float);
   ("category", VStr "toys"); ("description", VStr "");
   ("createdAt", VDate 1767000000000%Z); ("updatedAt", VDate 1767000000000%Z)].

Definition saw : obj :=
  [("_id", VObjectId id3); ("name", VStr "saw"); ("price", VNum 12%float);
   ("category", VStr "tools")].

Definition spade : obj :=
  [("_id", VObjectId id3); ("name", VStr "spade"); ("price", VNum 20%float);
   ("category", VArr [VStr "tools"; VStr "garden"])].

Definition shop : state := mkState [hammer; ball] [hammer; ball; saw] 0 [].

Definition empty_shop : state := mkState [] [] 0 [].

Definition widget : obj :=
  [("name", VStr "Widget"); ("price", VNum 12.5%float);
   ("category", VStr "tools")].

(** An environment whose store fails every call. *)
Definition failing : env :=
  mkEnv (fun _ => 1767225600000%Z) (fun _ => true) (fun _ => id3).

(** Truthiness of a value: [undefined], [null], [false], both zeros, NaN
    and the empty string are falsy. *)
Definition truthy_value (v : value) : bool :=
  match v with
  | VUndefined | VNull => false
  | VBool b => b
  | VNum x => negb (PrimFloat.eqb x 0%float || PrimFloat.is_nan x)
  | VStr s => negb (String.eqb s "")
  | VArr _ | VObj _ | VDate _ | VObjectId _ => true
  end.

(** ** The handlers *)

Section Handlers.

#[local] Set Default Proof Using "Type".

(** The driver's [ObjectId.isValid(id)] and [new ObjectId(id)], and
    JavaScript's [Number(s)] on a string. *)
Variable ObjectId_isValid : string -> bool.
Variable ObjectId_new : string -> oid.
Variable Number : string -> float.

(** [validateId(res, id)] *)
Definition validateId (id : string) : option response :=
  if negb (ObjectId_isValid id)
  then Some (json 400 (error_body "Invalid item id"))
  else None.

(** [GET /api/items]: the query string is not consulted. *)
Definition getItems (q : query) : handler :=
  try_catch (
    docs <- find_toArray Items (mkFilter None None) [] [] ;;
    ret (json 200 (VObj [("count", VNum (number_of_nat (List.length docs)));
                         ("items", VArr (map VObj docs))]))).

(** [GET /api/items/:id] *)
Definition getItem (id : string) : handler :=
  try_catch (
    match validateId id with
    | Some r => ret r
    | None =>
        item <- findOne Items (ObjectId_new id) ;;
        match item with
        | None => ret (json 404 (error_body "Item not found"))
        | Some d => ret (json 200 (VObj d))
        end
    end).

(** [POST /api/items] *)
Definition postItem (reqBody : obj) : handler :=
  try_catch (
    let name := get "name" reqBody in
    let price := get "price" reqBody in
    let category := get "category" reqBody in
    let description := get "description" reqBody in
    match validateRequiredFields
            [("name", name); ("price", price); ("category", category)] with
    | Some r => ret r
    | None =>
        createdAt <- new_Date ;;
        updatedAt <- new_Date ;;
        insertedId <- insertOne Items
          [("name", name); ("price", price); ("category", category);
           ("description", nullish description (VStr ""));
           ("createdAt", createdAt); ("updatedAt", updatedAt)] ;;
        ret (json 201 (VObj [("message", VStr "Item created");
                             ("id", VObjectId insertedId)]))
    end).

(** [PUT /api/items/:id] *)
Definition putItem (id : string) (reqBody : obj) : handler :=
  try_catch (
    match validateId id with
    | Some r => ret r
    | None =>
        let name := get "name" reqBody in
        let price := get "price" reqBody in
        let category := get "category" reqBody in
        let description := get "description" reqBody in
        match validateRequiredFields
                [("name", name); ("price", price); ("category", category)] with
        | Some r => ret r
        | None =>
            updatedAt <- new_Date ;;
            matchedCount <- updateOne Items (ObjectId_new id)
              [("name", name); ("price", price); ("category", category);
               ("description", nullish description (VStr ""));
               ("updatedAt", updatedAt)] ;;
            if (matchedCount =? 0)%nat
            then ret (json 404 (error_body "Item not found"))
            else ret (json 200 (VObj [("message", VStr "Item fully updated")]))
        end
    end).

(** [PATCH /api/items/:id] *)
Definition patchItem (id : string) (reqBody : obj) : handler :=
  try_catch (
    match validateId id with
    | Some r => ret r
    | None =>
        match validatePatchFields reqBody with
        | Some r => ret r
        | None =>
            updatedAt <- new_Date ;;
            let patchData := set "updatedAt" updatedAt reqBody in
            matchedCount <- updateOne Items (ObjectId_new id) patchData ;;
            if (matchedCount =? 0)%nat
            then ret (json 404 (error_body "Item not found"))
            else ret (json 200 (VObj [("message", VStr "Item partially updated")]))
        end
    end).

(** [DELETE /api/items/:id] *)
Definition deleteItem (id : string) : handler :=
  try_catch (
    match validateId id with
    | Some r => ret r
    | None =>
        deletedCount <- deleteOne Items (ObjectId_new id) ;;
        if (deletedCount =? 0)%nat
        then ret (json 404 (error_body "Item not found"))
        else ret (send 204)
    end).

(** [GET /api/products] of the legacy service. It has no [try]: a failed
    store call leaves the request without a response ([Thrown]). *)
Definition getProducts (q : query) : M response :=
  let f_category :=
    match category q with
    | Some c => if negb (String.eqb c "") then Some c else None
    | None => None
    end in
  let f_price :=
    match minPrice q with
    | Some m => if negb (String.eqb m "") then Some (Number m) else None
    | None => None
    end in
  let sortOption :=
    match sort q with
    | Some s => if String.eqb s "price" then [("price", VNum 1%float)] else []
    | None => []
    end in
  let projection :=
    match fields q with
    | Some fs =>
        if negb (String.eqb fs "")
        then fold_left (fun acc field => set field (VNum 1%float) acc)
               (split "," fs) (set "_id" (VNum 0%float) [])
        else []
    | None => []
    end in
  docs <- find_toArray Products (mkFilter f_category f_price)
            projection sortOption ;;
  ret (json 200 (VObj [("count", VNum (number_of_nat (List.length docs)));
                       ("products", VArr (map VObj docs))])).

(** [GET /api/products/:id] of the legacy service. *)
Definition getProduct (id : string) : M response :=
  if negb (ObjectId_isValid id)
  then ret (json 400 (error_body "Invalid product id"))
  else
    product <- findOne Products (ObjectId_new id) ;;
    match product with
    | None => ret (json 404 (error_body "Product not found"))
    | Some d => ret (json 200 (VObj d))
    end.

(** [POST /api/products] of the legacy service. *)
Definition postProduct (reqBody : obj) : M response :=
  let name := get "name" reqBody in
  let price := get "price" reqBody in
  let category := get "category" reqBody in
  if negb (truthy_value name) || negb (truthy_value price)
     || negb (truthy_value category)
  then ret (json 400 (error_body "Missing required fields"))
  else
    insertedId <- insertOne Products
      [("name", name); ("price", price); ("category", category)] ;;
    ret (json 201 (VObj [("message", VStr "Product created");
                         ("id", VObjectId insertedId)])).

(** ** Vocabulary of the properties *)

(** A price the validators let through: a number [x] with [0 <= x] in IEEE
    order. NaN and every negative number, [-Infinity] included, fail the
    comparison; [+Infinity] and both zeros pass it. *)
Definition accepted_price (v : value) : Prop :=
  exists x : float, v = VNum x /\ PrimFloat.leb 0%float x = true.

(** The field counts as missing: [undefined], [null] or the empty string. *)
Definition missing_field (body : obj) (f : string) : bool :=
  is_undefined (get f body) || is_null (get f body)
  || is_empty_string (get f body).

(** The field fails its type rule of create and full replace. *)
Definition type_invalid (body : obj) (f : string) : bool :=
  if String.eqb f "price" then
    negb (String.eqb (typeof (get "price" body)) "number")
    || Number_isNaN (get "price" body)
    || lt_number (get "price" body) 0%float
  else negb (String.eqb (typeof (get f body)) "string").

(** The error message that names a required field's type rule. *)
Definition type_message (f : string) : string :=
  if String.eqb f "name" then "Field 'name' must be a string"
  else if String.eqb f "category" then "Field 'category' must be a string"
  else if String.eqb f "price" then "Field 'price' must be a non-negative number"
  else "".

(** The response body names the field: in its [missing] list, or as the
    subject of its error message. *)
Definition names_field (r : response) (f : string) : bool :=
  match body r with
  | Some (VObj props) =>
      match get "missing" props with
      | VArr l =>
          existsb (fun v => match v with VStr s => String.eqb s f | _ => false end) l
      | _ => false
      end
      || match get "error" props with
         | VStr m => String.eqb m (type_message f)
         | _ => false
         end
  | _ => false
  end.

(** The request body without the keys outside the allowed set. *)
Definition known_fields (reqBody : obj) : obj :=
  List.filter (fun kv => includes allowed (fst kv)) reqBody.

(** [a] comes before [b] in ascending order of price, both prices numbers. *)
Definition price_le (a b : obj) : Prop :=
  exists x y : float,
    get "price" a = VNum x /\ get "price" b = VNum y /\ PrimFloat.leb x y = true.

(** The document's [category] and [price] are not arrays. *)
Definition is_array (v : value) : bool :=
  match v with VArr _ => true | _ => false end.

Definition scalar_fields (d : obj) : Prop :=
  is_array (get "category" d) = false /\ is_array (get "price" d) = false.

(** The list request [?category=X&minPrice=10&sort=price&fields=name,price]. *)
Definition list_query (X : string) : query :=
  mkQuery (Some X) (Some "10") (Some "price") (Some "name,price").

(** The document [POST /api/items] stores for a request body. *)
Definition created_item (o : oid) (reqBody : obj) (t1 t2 : Z) : obj :=
  [("_id", VObjectId o);
   ("name", get "name" reqBody);
   ("price", get "price" reqBody);
   ("category", get "category" reqBody);
   ("description", nullish (get "description" reqBody) (VStr ""));
   ("createdAt", VDate t1);
   ("updatedAt", VDate t2)].

(** Forget the driver's functions where a goal does not mention them. *)
Ltac forget_driver :=
  try clear Number; try clear ObjectId_new; try clear ObjectId_isValid.

(** Case analysis on membership in [REQUIRED_FIELDS]. *)
Ltac required_cases H := destruct H as [<-|[<-|[<-|[]]]].

(** The [$set] document of [PUT /api/items/:id], stamped at time [t]. *)
Definition replacement (reqBody : obj) (t : Z) : obj :=
  [("name", get "name" reqBody);
   ("price", get "price" reqBody);
   ("category", get "category" reqBody);
   ("description", nullish (get "description" reqBody) (VStr ""));
   ("updatedAt", VDate t)].

(** A request body as the JSON parser delivers it: distinct keys, and no
    value [undefined]. *)
Definition json_body (o : obj) : Prop :=
  NoDup (keys o) /\ Forall (fun kv => snd kv <> VUndefined) o.

(** An optional string field: absent, or a string. *)
Definition optional_string (v : value) : Prop :=
  v = VUndefined \/ typeof v = "string".

(** A stored item whose required fields have the types the validators
    ask for. *)
Definition well_typed_item (d : obj) : Prop :=
  typeof (get "name" d) = "string"
  /\ typeof (get "category" d) = "string"
  /\ accepted_price (get "price" d).


(** The request got a 400 or the generic 500, and no collection changed. *)
Definition refused_or_failed (r : response * state) (st : state) : Prop :=
  (status (fst r) = 400 \/ fst r = handleServerError)
  /\ items (snd r) = items st /\ products (snd r) = products st.

(** The state holds the same documents and took no clock reading. *)
Definition same_data (st' st : state) : Prop :=
  items st' = items st /\ products st' = products st /\ reads st' = reads st.

(** The request was answered 404 "Item not found" and no item changed. *)
Definition item_not_found (r : response * state) (st : state) : Prop :=
  fst r = json 404 (error_body "Item not found") /\ items (snd r) = items st.



(** The clock never goes back. *)
Definition monotone (e : env) : Prop :=
  forall a b : nat, (a <= b)%nat -> (clock e a <= clock e b)%Z.

(** The item's timestamps are in order, and its creation time is not after
    any clock reading from the [n]-th on. *)
Definition stamped_before (e : env) (n : nat) (d : obj) : Prop :=
  exists t u : Z,
    get "createdAt" d = VDate t /\ get "updatedAt" d = VDate u
    /\ (t <= u)%Z
    /\ forall k : nat, (n <= k)%nat -> (t <= clock e k)%Z.

(** * Properties *)

(** ** IEEE comparison *)

Lemma SFcompare_antisym (a b : spec_float) (c : comparison) :
  SFcompare a b = Some c -> SFcompare b a = Some (CompOpp c).
Proof.
  destruct a as [sa|sa| |sa ma ea], b as [sb|sb| |sb mb eb]; simpl;
    try discriminate;
    try (destruct sa); try (destruct sb); simpl;
    intros H; inversion H; subst; clear H; try reflexivity.
  all: rewrite (Z.compare_antisym ea eb);
    destruct (Z.compare ea eb); simpl; try reflexivity;
    rewrite (Pos.compare_cont_antisym ma mb Eq); reflexivity.
Qed.

Lemma is_nan_Prim2SF (x : float) :
  PrimFloat.is_nan x = match Prim2SF x with S754_nan => true | _ => false end.
Proof.
  unfold PrimFloat.is_nan. rewrite FloatAxioms.eqb_spec. unfold SFeqb.
  destruct (Prim2SF x) as [s|s| |s m e]; simpl; try reflexivity;
    try (destruct s; reflexivity).
  destruct s; rewrite Z.compare_refl, Pos.compare_cont_refl; reflexivity.
Qed.

Lemma leb_total (x y : float) :
  PrimFloat.is_nan x = false -> PrimFloat.is_nan y = false ->
  PrimFloat.leb x y = false -> PrimFloat.leb y x = true.
Proof.
  rewrite !is_nan_Prim2SF, !FloatAxioms.leb_spec. unfold SFleb.
  intros Hx Hy.
  destruct (SFcompare (Prim2SF x) (Prim2SF y)) as [c|] eqn:E.
  - rewrite (SFcompare_antisym _ _ _ E). destruct c; simpl; congruence.
  - destruct (Prim2SF x), (Prim2SF y); simpl in *; congruence.
Qed.

Lemma leb_not_nan (b x : float) :
  PrimFloat.leb b x = true -> PrimFloat.is_nan x = false.
Proof.
  rewrite is_nan_Prim2SF, FloatAxioms.leb_spec. unfold SFleb.
  destruct (Prim2SF b), (Prim2SF x); simpl; congruence.
Qed.

(** The price test of the validators, [Number.isNaN(x) || x < 0], is the
    negation of [0 <= x]. *)
Lemma nonneg_leb (x : float) :
  PrimFloat.is_nan x || PrimFloat.ltb x 0%float = negb (PrimFloat.leb 0%float x).
Proof.
  rewrite is_nan_Prim2SF, FloatAxioms.ltb_spec, FloatAxioms.leb_spec.
  unfold SFltb, SFleb.
  change (Prim2SF 0%float) with (S754_zero false).
  destruct (Prim2SF x) as [s|s| |s m e]; simpl; try reflexivity;
    destruct s; reflexivity.
Qed.

(** ** Objects *)

Lemma get_set_same (k : string) (v : value) (o : obj) : get k (set k v o) = v.
Proof.
  induction o as [|[k' v'] rest IH]; simpl.
  - now rewrite String.eqb_refl.
  - destruct (String.eqb k k') eqn:E; simpl.
    + now rewrite String.eqb_refl.
    + now rewrite E.
Qed.

Lemma get_set_other (k k' : string) (v : value) (o : obj) :
  k <> k' -> get k (set k' v o) = get k o.
Proof.
  intros Hne. apply String.eqb_neq in Hne.
  induction o as [|[k0 v0] rest IH]; simpl.
  - now rewrite Hne.
  - destruct (String.eqb k' k0) eqn:E; simpl.
    + apply String.eqb_eq in E; subst k0. now rewrite Hne.
    + now rewrite IH.
Qed.

Lemma get_apply_set_other (k : string) (fs : obj) (d : obj) :
  ~ In k (keys fs) -> get k (apply_set fs d) = get k d.
Proof.
  unfold apply_set. revert d.
  induction fs as [|[k' v'] rest IH]; intros d Hn; simpl; [reflexivity|].
  rewrite IH.
  - apply get_set_other. intros ->. apply Hn. now left.
  - intros Hin. apply Hn. now right.
Qed.

Lemma apply_set_snoc (fs : obj) (k : string) (v : value) (d : obj) :
  apply_set (fs ++ [(k, v)]) d = set k v (apply_set fs d).
Proof. unfold apply_set. now rewrite fold_left_app. Qed.

Lemma set_absent (k : string) (v : value) (o : obj) :
  ~ In k (keys o) -> set k v o = o ++ [(k, v)].
Proof.
  induction o as [|[k' v'] rest IH]; simpl; intros Hn; [reflexivity|].
  destruct (String.eqb k k') eqn:E.
  - apply String.eqb_eq in E. subst. exfalso. apply Hn. now left.
  - rewrite IH; [reflexivity|]. intros Hin. apply Hn. now right.
Qed.

Lemma keys_set (k : string) (v : value) (o : obj) (k0 : string) :
  In k0 (keys (set k v o)) <-> k0 = k \/ In k0 (keys o).
Proof.
  induction o as [|[k' v'] rest IH]; simpl.
  - split; [intros [H|[]]; now left | intros [H|[]]; now left].
  - destruct (String.eqb k k') eqn:E; simpl.
    + apply String.eqb_eq in E. subst k'. split.
      * intros [H|H]; [left; now symmetry|right; now right].
      * intros [H|[H|H]]; [left; now symmetry|now left|now right].
    + rewrite IH. (forget_driver; tauto).
Qed.

Lemma get_absent (k : string) (o : obj) :
  ~ In k (keys o) -> get k o = VUndefined.
Proof.
  induction o as [|[k' v'] rest IH]; simpl; intros Hn; [reflexivity|].
  destruct (String.eqb k k') eqn:E.
  - apply String.eqb_eq in E. subst. exfalso. apply Hn. now left.
  - apply IH. intros Hin. apply Hn. now right.
Qed.

Lemma includes_In (l : list string) (k : string) :
  includes l k = true <-> In k l.
Proof.
  unfold includes. rewrite existsb_exists. split.
  - intros [x [Hin Heq]]. apply String.eqb_eq in Heq. now subst.
  - intros Hin. exists k. split; [assumption|apply String.eqb_refl].
Qed.

(** Filtering an object by key keeps the value of every key kept. *)
Lemma get_filter_keys (keep : string -> bool) (k : string) (o : obj) :
  keep k = true ->
  get k (List.filter (fun kv => keep (fst kv)) o) = get k o.
Proof.
  intros Hk.
  induction o as [|[k' v'] rest IH]; [reflexivity|].
  cbn [List.filter fst]. destruct (keep k') eqn:Ea; cbn [get].
  - destruct (String.eqb k k'); [reflexivity|exact IH].
  - destruct (String.eqb k k') eqn:E; [|exact IH].
    apply String.eqb_eq in E. subst k'. congruence.
Qed.

(** Dropping the keys outside the allowed set changes no allowed field. *)
Lemma get_known_fields (k : string) (reqBody : obj) :
  In k allowed -> get k (known_fields reqBody) = get k reqBody.
Proof.
  intros Hk. unfold known_fields.
  apply (get_filter_keys (includes allowed)). now apply includes_In.
Qed.

Lemma keys_apply_set (fs d : obj) (k : string) :
  In k (keys (apply_set fs d)) -> In k (keys d) \/ In k (keys fs).
Proof.
  unfold apply_set. revert d.
  induction fs as [|[k' v'] rest IH]; intros d; cbn [fold_left fst snd].
  - now left.
  - intros Hin. apply IH in Hin. destruct Hin as [Hin|Hin].
    + apply keys_set in Hin. destruct Hin as [->|Hin].
      * right. now left.
      * now left.
    + right. now right.
Qed.

(** ** Validators *)

Lemma validateRequiredFields_status (reqBody : obj) (r : response) :
  validateRequiredFields reqBody = Some r -> status r = 400.
Proof.
  unfold validateRequiredFields.
  repeat match goal with
         | |- context [if ?b then _ else _] => destruct b
         end; intros H; inversion H; reflexivity.
Qed.

Lemma validatePatchFields_status (reqBody : obj) (r : response) :
  validatePatchFields reqBody = Some r -> status r = 400.
Proof.
  unfold validatePatchFields.
  repeat match goal with
         | |- context [if ?b then _ else _] => destruct b
         end; intros H; inversion H; reflexivity.
Qed.

(** The handlers validate a copy holding the three required fields of the
    request body: it validates as the body itself. *)
Lemma validateRequiredFields_picked (reqBody : obj) :
  validateRequiredFields
    [("name", get "name" reqBody); ("price", get "price" reqBody);
     ("category", get "category" reqBody)]
  = validateRequiredFields reqBody.
Proof. reflexivity. Qed.

Lemma price_test (v : value) :
  negb (String.eqb (typeof v) "number") || Number_isNaN v
  || lt_number v 0%float = false
  <-> accepted_price v.
Proof.
  unfold accepted_price. destruct v; simpl;
    try (split; [discriminate | intros [x0 [H _]]; discriminate]).
  rewrite nonneg_leb, negb_false_iff. split.
  - intros H. now exists x.
  - intros [x0 [H1 H2]]. now inversion H1; subst.
Qed.

Lemma optional_string_test (v : value) :
  v = VUndefined \/ typeof v = "string" ->
  negb (is_undefined v) && negb (String.eqb (typeof v) "string") = false.
Proof.
  intros [H|H]; rewrite H; [reflexivity|].
  cbn. apply andb_false_r.
Qed.

Lemma empty_string_test (s : string) : s <> "" -> String.eqb s "" = false.
Proof. intros H. now apply String.eqb_neq. Qed.

(** C2 (as amended): when [price] is present, the validators accept it if
    and only if it is a number with [0 <= price] in IEEE order, that is a
    number that is not NaN and not negative; [+Infinity] passes. Create and
    full replace, the other two required fields being non-empty strings:
    validation succeeds exactly for an accepted price, and any other price
    gives a 400 response that names [price]. Partial update, the other rules
    passing and [price] present: validation succeeds exactly for an accepted
    price, and any other price gives the 400 response of the price rule. *)
Theorem price_accepted_iff_nonnegative_number (reqBody : obj) :
  (forall n c : string,
      get "name" reqBody = VStr n -> n <> "" ->
      get "category" reqBody = VStr c -> c <> "" ->
      (validateRequiredFields reqBody = None
       <-> accepted_price (get "price" reqBody))
      /\ (~ accepted_price (get "price" reqBody) ->
          exists r, validateRequiredFields reqBody = Some r
                    /\ status r = 400 /\ names_field r "price" = true))
  /\
  (get "price" reqBody <> VUndefined ->
   (forall k, In k (keys reqBody) -> In k allowed) ->
   get "name" reqBody = VUndefined \/ typeof (get "name" reqBody) = "string" ->
   get "category" reqBody = VUndefined
   \/ typeof (get "category" reqBody) = "string" ->
   get "description" reqBody = VUndefined
   \/ typeof (get "description" reqBody) = "string" ->
   (validatePatchFields reqBody = None
    <-> accepted_price (get "price" reqBody))
   /\ (~ accepted_price (get "price" reqBody) ->
       validatePatchFields reqBody
       = Some (json 400
                 (error_body "Field 'price' must be a non-negative number")))).
Proof.
  split.
  - intros n c Hn Hne Hc Hce.
    pose proof (price_test (get "price" reqBody)) as Ht.
    unfold validateRequiredFields, REQUIRED_FIELDS.
    cbn [List.filter]. rewrite Hn, Hc.
    cbn [is_undefined is_null is_empty_string orb typeof].
    rewrite (empty_string_test n Hne), (empty_string_test c Hce).
    destruct (is_undefined (get "price" reqBody)
              || is_null (get "price" reqBody)
              || is_empty_string (get "price" reqBody)) eqn:Em.
    + cbn. split.
      * split; [discriminate|].
        intros [x [Hx _]]. rewrite Hx in Em. discriminate.
      * intros _. eexists. split; [reflexivity|]. split; reflexivity.
    + cbn [List.length Nat.ltb Nat.leb String.eqb Ascii.eqb Bool.eqb negb].
      destruct (negb (String.eqb (typeof (get "price" reqBody)) "number")
                || Number_isNaN (get "price" reqBody)
                || lt_number (get "price" reqBody) 0%float) eqn:Ep.
      * split.
        -- split; [discriminate|]. intros Ha. apply Ht in Ha. discriminate.
        -- intros _. eexists. split; [reflexivity|]. split; reflexivity.
      * split.
        -- split; [intros _; now apply Ht | reflexivity].
        -- intros Hna. exfalso. apply Hna. now apply Ht.
  - intros Hp Hkeys Hname Hcat Hdesc.
    pose proof (price_test (get "price" reqBody)) as Ht.
    unfold validatePatchFields.
    destruct (List.length (keys reqBody) =? 0)%nat eqn:El.
    { exfalso. apply Hp. apply get_absent.
      destruct reqBody; [intros []|discriminate]. }
    assert (Hinv : List.filter (fun k => negb (includes allowed k)) (keys reqBody) = []).
    { clear -Hkeys. induction (keys reqBody) as [|k ks IH]; [reflexivity|].
      cbn [List.filter].
      assert (Hk : includes allowed k = true)
        by (apply includes_In, Hkeys; now left).
      rewrite Hk. cbn. apply IH. intros k0 H0. apply Hkeys. now right. }
    rewrite Hinv. cbn [List.length Nat.ltb Nat.leb].
    assert (Hn' : negb (is_undefined (get "name" reqBody))
                  && negb (String.eqb (typeof (get "name" reqBody)) "string") = false).
    { now apply optional_string_test. }
    assert (Hc' : negb (is_undefined (get "category" reqBody))
                  && negb (String.eqb (typeof (get "category" reqBody)) "string") = false).
    { now apply optional_string_test. }
    assert (Hd' : negb (is_undefined (get "description" reqBody))
                  && negb (String.eqb (typeof (get "description" reqBody)) "string") = false).
    { now apply optional_string_test. }
    rewrite Hn', Hc', Hd'.
    assert (Hu : is_undefined (get "price" reqBody) = false)
      by (destruct (get "price" reqBody); try reflexivity; congruence).
    rewrite Hu. cbn [negb andb].
    destruct (negb (String.eqb (typeof (get "price" reqBody)) "number")
              || Number_isNaN (get "price" reqBody)
              || lt_number (get "price" reqBody) 0%float) eqn:Ep.
    + split.
      * split; [discriminate|]. intros Ha. apply Ht in Ha. discriminate.
      * reflexivity.
    + split.
      * split; [intros _; now apply Ht | reflexivity].
      * intros Hna. exfalso. apply Hna. now apply Ht.
Qed.

(** C3 (as amended): a create or full-replace body that fails validation
    gets a 400 response. When any required field is missing, the response
    lists every missing required field, in the order name, price, category,
    and nothing else. When none is missing, the response names one field
    only: the first that fails its type rule, in the order name, category,
    price. *)
Theorem validation_error_names (reqBody : obj) (r : response) :
  validateRequiredFields reqBody = Some r ->
  status r = 400
  /\ ((exists f, In f REQUIRED_FIELDS /\ missing_field reqBody f = true) ->
      r = json 400
            (VObj [("error", VStr "Missing required fields");
                   ("missing",
                    VArr (map VStr (List.filter (missing_field reqBody)
                                      REQUIRED_FIELDS)))])
      /\ forall f, In f REQUIRED_FIELDS ->
           (names_field r f = true <-> missing_field reqBody f = true))
  /\ ((forall f, In f REQUIRED_FIELDS -> missing_field reqBody f = false) ->
      forall f, In f REQUIRED_FIELDS ->
        (names_field r f = true
         <-> List.find (type_invalid reqBody) ["name"; "category"; "price"]
             = Some f)).
Proof.
  intros Hv. split; [exact (validateRequiredFields_status _ _ Hv)|].
  revert Hv. unfold validateRequiredFields, REQUIRED_FIELDS.
  change (fun f : string =>
            is_undefined (get f reqBody) || is_null (get f reqBody)
            || is_empty_string (get f reqBody))
    with (missing_field reqBody).
  cbn [List.filter List.find].
  unfold type_invalid. cbn [String.eqb Ascii.eqb Bool.eqb].
  destruct (missing_field reqBody "name") eqn:Mn;
    destruct (missing_field reqBody "price") eqn:Mp;
    destruct (missing_field reqBody "category") eqn:Mc;
    cbn [List.length Nat.ltb Nat.leb];
    destruct (negb (String.eqb (typeof (get "name" reqBody)) "string")) eqn:Tn;
    destruct (negb (String.eqb (typeof (get "category" reqBody)) "string")) eqn:Tc;
    destruct (negb (String.eqb (typeof (get "price" reqBody)) "number")
              || Number_isNaN (get "price" reqBody)
              || lt_number (get "price" reqBody) 0%float) eqn:Tp;
    intros Hv; inversion Hv; subst r; clear Hv.
  all: split.
  all: try (intros [f0 [Hin0 Hm0]];
            first [ solve [exfalso; required_cases Hin0; congruence]
                  | split; [reflexivity|];
                    intros f Hin; required_cases Hin;
                    rewrite ?Mn, ?Mp, ?Mc; cbn; split; intros Hf;
                    first [reflexivity | discriminate] ]).
  all: intros Hall;
    first [ solve [exfalso;
                   pose proof (Hall "name" (or_introl eq_refl));
                   pose proof (Hall "price" (or_intror (or_introl eq_refl)));
                   pose proof (Hall "category"
                                 (or_intror (or_intror (or_introl eq_refl))));
                   congruence]
          | intros f Hin; required_cases Hin; cbn; split; intros Hf;
            first [reflexivity | discriminate] ].
Qed.

Lemma filter_negb_In (l ks : list string) (k : string) :
  In k (List.filter (fun k0 => negb (includes l k0)) ks)
  <-> In k ks /\ ~ In k l.
Proof.
  rewrite filter_In, negb_true_iff. split; intros [H1 H2]; split; trivial.
  - intros Hin. apply includes_In in Hin. congruence.
  - destruct (includes l k) eqn:E; [|reflexivity].
    apply includes_In in E. contradiction.
Qed.

Lemma validatePatchFields_unknown (reqBody : obj) :
  (exists k, In k (keys reqBody) /\ ~ In k allowed) ->
  validatePatchFields reqBody
  = Some (json 400
            (VObj [("error", VStr "Invalid fields in PATCH");
                   ("invalid",
                    VArr (map VStr
                            (List.filter (fun k => negb (includes allowed k))
                               (keys reqBody))));
                   ("allowed", VArr (map VStr allowed))])).
Proof.
  intros [k [Hin Hna]]. unfold validatePatchFields.
  destruct (keys reqBody) as [|k0 ks] eqn:Ek; [destruct Hin|].
  cbn [List.length Nat.eqb].
  assert (Hk : In k (List.filter (fun k1 => negb (includes allowed k1)) (k0 :: ks)))
    by now apply filter_negb_In.
  destruct (List.filter (fun k1 => negb (includes allowed k1)) (k0 :: ks));
    [destruct Hk|reflexivity].
Qed.

(** ** Short circuits of the handlers *)

Lemma validateId_valid (id : string) :
  ObjectId_isValid id = true -> validateId id = None.
Proof. unfold validateId. now intros ->. Qed.

Lemma validateId_malformed (id : string) :
  ObjectId_isValid id = false ->
  validateId id = Some (json 400 (error_body "Invalid item id")).
Proof. unfold validateId. now intros ->. Qed.

Lemma postItem_rejected (reqBody : obj) (r : response) (e : env) (st : state) :
  validateRequiredFields reqBody = Some r -> postItem reqBody e st = (r, st).
Proof.
  intros H. unfold postItem, try_catch.
  now rewrite validateRequiredFields_picked, H.
Qed.

Lemma putItem_rejected (id : string) (reqBody : obj) (r : response)
    (e : env) (st : state) :
  ObjectId_isValid id = true ->
  validateRequiredFields reqBody = Some r -> putItem id reqBody e st = (r, st).
Proof.
  intros Hid H. unfold putItem, try_catch.
  now rewrite (validateId_valid _ Hid), validateRequiredFields_picked, H.
Qed.

Lemma patchItem_rejected (id : string) (reqBody : obj) (r : response)
    (e : env) (st : state) :
  ObjectId_isValid id = true ->
  validatePatchFields reqBody = Some r -> patchItem id reqBody e st = (r, st).
Proof.
  intros Hid H. unfold patchItem, try_catch.
  now rewrite (validateId_valid _ Hid), H.
Qed.

(** C5: the empty partial-update body gets the 400 response "PATCH body
    cannot be empty"; a body with a key outside name, price, category,
    description gets the 400 response "Invalid fields in PATCH", whose
    [invalid] list holds exactly the offending keys of the body and whose
    [allowed] list is the allowed set. Both are what the validator writes,
    and what [PATCH /api/items/:id] sends for a well-formed identifier, the
    store left untouched. *)
Theorem patch_empty_and_unknown_fields :
  validatePatchFields []
  = Some (json 400 (error_body "PATCH body cannot be empty"))
  /\ (forall id e st,
         ObjectId_isValid id = true ->
         patchItem id [] e st
         = (json 400 (error_body "PATCH body cannot be empty"), st))
  /\ forall reqBody : obj,
       (exists k, In k (keys reqBody) /\ ~ In k allowed) ->
       exists invalid : list string,
         (forall k, In k invalid <-> In k (keys reqBody) /\ ~ In k allowed)
         /\ validatePatchFields reqBody
            = Some (json 400
                      (VObj [("error", VStr "Invalid fields in PATCH");
                             ("invalid", VArr (map VStr invalid));
                             ("allowed",
                              VArr [VStr "name"; VStr "price";
                                    VStr "category"; VStr "description"])]))
         /\ forall id e st,
              ObjectId_isValid id = true ->
              patchItem id reqBody e st
              = (json 400
                   (VObj [("error", VStr "Invalid fields in PATCH");
                          ("invalid", VArr (map VStr invalid));
                          ("allowed",
                           VArr [VStr "name"; VStr "price";
                                 VStr "category"; VStr "description"])]),
                 st).
Proof.
  split; [reflexivity|]. split.
  - intros id e st Hid. now apply patchItem_rejected.
  - intros reqBody Hex.
    exists (List.filter (fun k => negb (includes allowed k)) (keys reqBody)).
    split; [intros k; apply filter_negb_In|].
    pose proof (validatePatchFields_unknown reqBody Hex) as Hv.
    split; [exact Hv|].
    intros id e st Hid. now apply patchItem_rejected.
Qed.

Lemma putItem_malformed (id : string) (reqBody : obj) (e : env) (st : state) :
  ObjectId_isValid id = false ->
  putItem id reqBody e st = (json 400 (error_body "Invalid item id"), st).
Proof.
  intros Hid. unfold putItem, try_catch.
  now rewrite (validateId_malformed _ Hid).
Qed.

Lemma patchItem_malformed (id : string) (reqBody : obj) (e : env) (st : state) :
  ObjectId_isValid id = false ->
  patchItem id reqBody e st = (json 400 (error_body "Invalid item id"), st).
Proof.
  intros Hid. unfold patchItem, try_catch.
  now rewrite (validateId_malformed _ Hid).
Qed.

(** C6: a get, full-replace, partial-update or delete request whose path
    identifier is malformed gets the 400 response "Invalid item id", and the
    state is the one before the request: no store call was logged, no
    document changed, the clock was not read. *)
Theorem malformed_id_short_circuits (id : string) (reqBody : obj)
    (e : env) (st : state) :
  ObjectId_isValid id = false ->
  getItem id e st = (json 400 (error_body "Invalid item id"), st)
  /\ putItem id reqBody e st = (json 400 (error_body "Invalid item id"), st)
  /\ patchItem id reqBody e st = (json 400 (error_body "Invalid item id"), st)
  /\ deleteItem id e st = (json 400 (error_body "Invalid item id"), st).
Proof.
  intros Hid. split; [|split; [|split]].
  - unfold getItem, try_catch. now rewrite (validateId_malformed _ Hid).
  - now apply putItem_malformed.
  - now apply patchItem_malformed.
  - unfold deleteItem, try_catch. now rewrite (validateId_malformed _ Hid).
Qed.

(** ** The store operations *)

Lemma has_id_true (o : oid) (d : obj) :
  has_id o d = true -> get "_id" d = VObjectId o.
Proof.
  unfold has_id. destruct (get "_id" d); try discriminate.
  intros H. apply String.eqb_eq in H. now subst.
Qed.

Lemma has_id_apply_set (o : oid) (fs d : obj) :
  ~ In "_id" (keys fs) -> has_id o (apply_set fs d) = has_id o d.
Proof. intros H. unfold has_id. now rewrite get_apply_set_other. Qed.

Lemma update_first_map {B : Type} (g : obj -> B) (p : obj -> bool)
    (f : obj -> obj) (c : list obj) :
  (forall d, g (f d) = g d) ->
  map g (fst (update_first p f c)) = map g c.
Proof.
  intros Hg. induction c as [|d rest IH]; simpl; [reflexivity|].
  destruct (p d); simpl.
  - now rewrite Hg.
  - destruct (update_first p f rest) as [rest' n]. simpl in *. now rewrite IH.
Qed.

Lemma update_first_found (p : obj -> bool) (f : obj -> obj) (c : list obj)
    (d : obj) :
  (forall d0, p (f d0) = p d0) ->
  List.find p c = Some d ->
  snd (update_first p f c) = 1
  /\ List.find p (fst (update_first p f c)) = Some (f d).
Proof.
  intros Hp. induction c as [|d0 rest IH]; simpl; [discriminate|].
  destruct (p d0) eqn:E; simpl.
  - intros H. inversion H; subst. rewrite Hp, E. now split.
  - intros H. destruct (update_first p f rest) as [rest' n]. simpl in *.
    rewrite E. now apply IH.
Qed.

Lemma update_first_missed (p : obj -> bool) (f : obj -> obj) (c : list obj) :
  List.find p c = None -> update_first p f c = (c, 0).
Proof.
  induction c as [|d0 rest IH]; simpl; [reflexivity|].
  destruct (p d0); [discriminate|]. intros H. now rewrite IH.
Qed.

Lemma delete_first_found (p : obj -> bool) (c : list obj) (d : obj) :
  List.find p c = Some d -> snd (delete_first p c) = 1.
Proof.
  induction c as [|d0 rest IH]; simpl; [discriminate|].
  destruct (p d0); [reflexivity|].
  intros H. destruct (delete_first p rest) as [rest' n]. simpl in *. now apply IH.
Qed.

Lemma delete_first_missed (p : obj -> bool) (c : list obj) :
  List.find p c = None -> delete_first p c = (c, 0).
Proof.
  induction c as [|d0 rest IH]; simpl; [reflexivity|].
  destruct (p d0); [discriminate|]. intros H. now rewrite IH.
Qed.

(** With unique identifiers, [deleteOne] leaves no document of that
    identifier behind. *)
Lemma delete_first_unique (o : oid) (c : list obj) :
  unique_ids c ->
  List.find (has_id o) (fst (delete_first (has_id o) c)) = None.
Proof.
  unfold unique_ids. induction c as [|d rest IH]; simpl; [reflexivity|].
  intros Hnd. inversion Hnd as [|x l Hnotin Hnd']; subst.
  destruct (has_id o d) eqn:E; simpl.
  - destruct (List.find (has_id o) rest) as [d'|] eqn:Ef; [|reflexivity].
    exfalso. apply Hnotin. apply find_some in Ef. destruct Ef as [Hin Hd'].
    apply has_id_true in E. apply has_id_true in Hd'.
    rewrite E, <- Hd'. now apply in_map.
  - destruct (delete_first (has_id o) rest) as [rest' n]. simpl in *.
    rewrite E. now apply IH.
Qed.

Lemma find_app_new (p : obj -> bool) (c : list obj) (d : obj) :
  existsb p c = false -> p d = true -> List.find p (c ++ [d]) = Some d.
Proof.
  induction c as [|d0 rest IH]; simpl; intros He Hp.
  - now rewrite Hp.
  - apply orb_false_iff in He. destruct He as [H0 Hr]. rewrite H0. now apply IH.
Qed.

Lemma validatePatchFields_keys (reqBody : obj) :
  validatePatchFields reqBody = None ->
  forall k, In k (keys reqBody) -> In k allowed.
Proof.
  intros Hv k Hin.
  destruct (in_dec string_dec k allowed) as [Hy|Hn]; [assumption|].
  rewrite validatePatchFields_unknown in Hv; [discriminate|].
  now exists k.
Qed.

Lemma putItem_run (id : string) (reqBody : obj) (e : env) (st : state) :
  ObjectId_isValid id = true ->
  validateRequiredFields reqBody = None ->
  fault e (List.length (calls st)) = false ->
  putItem id reqBody e st
  = let fs := replacement reqBody (clock e (reads st)) in
    let u := update_first (has_id (ObjectId_new id)) (apply_set fs) (items st) in
    (if (snd u =? 0)%nat then json 404 (error_body "Item not found")
     else json 200 (VObj [("message", VStr "Item fully updated")]),
     mkState (fst u) (products st) (S (reads st))
       (calls st ++ [UpdateOne Items (ObjectId_new id) fs])).
Proof.
  intros Hid Hv Hf. unfold putItem, try_catch.
  rewrite (validateId_valid _ Hid), validateRequiredFields_picked, Hv.
  unfold bind, new_Date, updateOne, attempt, ret. cbn.
  rewrite Hf. unfold replacement.
  destruct (update_first _ _ (items st)) as [l n]. cbn.
  destruct (n =? 0)%nat; reflexivity.
Qed.

Lemma patchItem_run (id : string) (reqBody : obj) (e : env) (st : state) :
  ObjectId_isValid id = true ->
  validatePatchFields reqBody = None ->
  fault e (List.length (calls st)) = false ->
  patchItem id reqBody e st
  = let fs := set "updatedAt" (VDate (clock e (reads st))) reqBody in
    let u := update_first (has_id (ObjectId_new id)) (apply_set fs) (items st) in
    (if (snd u =? 0)%nat then json 404 (error_body "Item not found")
     else json 200 (VObj [("message", VStr "Item partially updated")]),
     mkState (fst u) (products st) (S (reads st))
       (calls st ++ [UpdateOne Items (ObjectId_new id) fs])).
Proof.
  intros Hid Hv Hf. unfold patchItem, try_catch.
  rewrite (validateId_valid _ Hid), Hv.
  unfold bind, new_Date, updateOne, attempt, ret. cbn.
  rewrite Hf.
  destruct (update_first _ _ (items st)) as [l n]. cbn.
  destruct (n =? 0)%nat; reflexivity.
Qed.

Lemma deleteItem_run (id : string) (e : env) (st : state) :
  ObjectId_isValid id = true ->
  fault e (List.length (calls st)) = false ->
  deleteItem id e st
  = let u := delete_first (has_id (ObjectId_new id)) (items st) in
    (if (snd u =? 0)%nat then json 404 (error_body "Item not found")
     else send 204,
     mkState (fst u) (products st) (reads st)
       (calls st ++ [DeleteOne Items (ObjectId_new id)])).
Proof.
  intros Hid Hf. unfold deleteItem, try_catch.
  rewrite (validateId_valid _ Hid).
  unfold bind, deleteOne, attempt, ret. cbn.
  rewrite Hf.
  destruct (delete_first _ (items st)) as [l n]. cbn.
  destruct (n =? 0)%nat; reflexivity.
Qed.

Lemma getItem_run (id : string) (e : env) (st : state) :
  ObjectId_isValid id = true ->
  fault e (List.length (calls st)) = false ->
  getItem id e st
  = (match List.find (has_id (ObjectId_new id)) (items st) with
     | None => json 404 (error_body "Item not found")
     | Some d => json 200 (VObj d)
     end,
     logged (FindOne Items (ObjectId_new id)) st).
Proof.
  intros Hid Hf. unfold getItem, try_catch.
  rewrite (validateId_valid _ Hid).
  unfold bind, findOne, attempt, ret. cbn.
  rewrite Hf.
  destruct (List.find _ (items st)); reflexivity.
Qed.

Lemma postItem_run (reqBody : obj) (e : env) (st : state) :
  validateRequiredFields reqBody = None ->
  fault e (List.length (calls st)) = false ->
  existsb (has_id (fresh e (List.length (calls st)))) (items st) = false ->
  postItem reqBody e st
  = let o := fresh e (List.length (calls st)) in
    let d := created_item o reqBody (clock e (reads st))
               (clock e (S (reads st))) in
    (json 201 (VObj [("message", VStr "Item created"); ("id", VObjectId o)]),
     mkState (items st ++ [d]) (products st) (S (S (reads st)))
       (calls st ++ [InsertOne Items (tl d)])).
Proof.
  intros Hv Hf Hfresh. unfold postItem, try_catch.
  rewrite validateRequiredFields_picked, Hv.
  unfold bind, new_Date, insertOne, attempt, ret. cbn.
  rewrite Hf, Hfresh. reflexivity.
Qed.

Lemma replacement_keys (reqBody : obj) (t : Z) :
  keys (replacement reqBody t)
  = ["name"; "price"; "category"; "description"; "updatedAt"].
Proof. reflexivity. Qed.

Lemma get_updatedAt_replacement (reqBody : obj) (t : Z) (d : obj) :
  get "updatedAt" (apply_set (replacement reqBody t) d) = VDate t.
Proof.
  unfold replacement.
  change [("name", get "name" reqBody); ("price", get "price" reqBody);
          ("category", get "category" reqBody);
          ("description", nullish (get "description" reqBody) (VStr ""));
          ("updatedAt", VDate t)]
    with ([("name", get "name" reqBody); ("price", get "price" reqBody);
           ("category", get "category" reqBody);
           ("description", nullish (get "description" reqBody) (VStr ""))]
          ++ [("updatedAt", VDate t)]).
  rewrite apply_set_snoc. apply get_set_same.
Qed.

Lemma get_description_replacement (reqBody : obj) (t : Z) (d : obj) :
  get "description" (apply_set (replacement reqBody t) d)
  = nullish (get "description" reqBody) (VStr "").
Proof.
  unfold replacement, apply_set. cbn [fold_left fst snd].
  rewrite get_set_other by discriminate. apply get_set_same.
Qed.

Lemma patchData_keys (reqBody : obj) (v : value) (k : string) :
  validatePatchFields reqBody = None ->
  In k (keys (set "updatedAt" v reqBody)) ->
  In k ["name"; "price"; "category"; "description"; "updatedAt"].
Proof.
  intros Hv Hin. apply keys_set in Hin. destruct Hin as [->|Hin].
  - cbn. (forget_driver; tauto).
  - apply (validatePatchFields_keys _ Hv) in Hin. cbn in *. (forget_driver; tauto).
Qed.

Lemma get_updatedAt_patchData (reqBody : obj) (v : value) (d : obj) :
  validatePatchFields reqBody = None ->
  get "updatedAt" (apply_set (set "updatedAt" v reqBody) d) = v.
Proof.
  intros Hv. rewrite set_absent.
  - rewrite apply_set_snoc. apply get_set_same.
  - intros Hin. apply (validatePatchFields_keys _ Hv) in Hin.
    cbn in Hin. (forget_driver; intuition discriminate).
Qed.

(** What an update of the first document matching [p] does to the field
    [k], when [$set] does not list [k] and keeps [p]. *)
Lemma update_first_outcome (p : obj -> bool) (fs : obj) (c : list obj) :
  (forall d, p (apply_set fs d) = p d) ->
  snd (update_first p (apply_set fs) c) <> 0 ->
  exists d, List.find p c = Some d
            /\ List.find p (fst (update_first p (apply_set fs) c))
               = Some (apply_set fs d).
Proof.
  intros Hp Hn. destruct (List.find p c) as [d|] eqn:Ef.
  - exists d. split; [reflexivity|]. now apply update_first_found.
  - rewrite (update_first_missed _ _ _ Ef) in Hn. now contradiction Hn.
Qed.

(** C7: full replace and partial update never write [createdAt]. Whatever
    the request and its outcome, every stored item keeps its [createdAt];
    and when the response is 200, the item of the request's identifier
    existed, kept its [createdAt], and had [updatedAt] set to the clock
    reading taken by the handler. *)
Theorem createdAt_left_unchanged (id : string) (reqBody : obj)
    (e : env) (st : state) :
  map (get "createdAt") (items (snd (putItem id reqBody e st)))
  = map (get "createdAt") (items st)
  /\ map (get "createdAt") (items (snd (patchItem id reqBody e st)))
     = map (get "createdAt") (items st)
  /\ (status (fst (putItem id reqBody e st)) = 200 ->
      exists d d',
        List.find (has_id (ObjectId_new id)) (items st) = Some d
        /\ List.find (has_id (ObjectId_new id))
             (items (snd (putItem id reqBody e st))) = Some d'
        /\ get "createdAt" d' = get "createdAt" d
        /\ get "updatedAt" d' = VDate (clock e (reads st)))
  /\ (status (fst (patchItem id reqBody e st)) = 200 ->
      exists d d',
        List.find (has_id (ObjectId_new id)) (items st) = Some d
        /\ List.find (has_id (ObjectId_new id))
             (items (snd (patchItem id reqBody e st))) = Some d'
        /\ get "createdAt" d' = get "createdAt" d
        /\ get "updatedAt" d' = VDate (clock e (reads st))).
Proof.
  destruct (ObjectId_isValid id) eqn:Hid.
  2:{ rewrite (putItem_malformed id reqBody e st Hid),
              (patchItem_malformed id reqBody e st Hid).
      cbn. repeat split; discriminate. }
  assert (Hput :
    map (get "createdAt") (items (snd (putItem id reqBody e st)))
    = map (get "createdAt") (items st)
    /\ (status (fst (putItem id reqBody e st)) = 200 ->
        exists d d',
          List.find (has_id (ObjectId_new id)) (items st) = Some d
          /\ List.find (has_id (ObjectId_new id))
               (items (snd (putItem id reqBody e st))) = Some d'
          /\ get "createdAt" d' = get "createdAt" d
          /\ get "updatedAt" d' = VDate (clock e (reads st)))).
  { destruct (validateRequiredFields reqBody) as [r|] eqn:Hv.
    { rewrite (putItem_rejected _ _ _ e st Hid Hv). cbn.
      split; [reflexivity|].
      rewrite (validateRequiredFields_status _ _ Hv). discriminate. }
    destruct (fault e (List.length (calls st))) eqn:Hf.
    { unfold putItem, try_catch.
      rewrite (validateId_valid _ Hid), validateRequiredFields_picked, Hv.
      unfold bind, new_Date, updateOne, attempt, ret. cbn. rewrite Hf. cbn.
      split; [reflexivity|discriminate]. }
    rewrite (putItem_run _ _ _ _ Hid Hv Hf). cbn zeta. cbn [fst snd items].
    set (fs := replacement reqBody (clock e (reads st))).
    assert (Hkeep : forall k, ~ In k (keys fs) ->
                    forall d, get k (apply_set fs d) = get k d)
      by (intros k Hk d; now apply get_apply_set_other).
    assert (Hc : ~ In "createdAt" (keys fs))
      by (cbn; (forget_driver; intuition discriminate)).
    assert (Hi : ~ In "_id" (keys fs)) by (cbn; (forget_driver; intuition discriminate)).
    split; [apply update_first_map; now apply Hkeep|].
    destruct (snd (update_first (has_id (ObjectId_new id)) (apply_set fs)
                     (items st)) =? 0)%nat eqn:En; [discriminate|].
    intros _. apply Nat.eqb_neq in En.
    destruct (update_first_outcome _ fs (items st)
                (fun d => has_id_apply_set _ fs d Hi) En) as [d [Hd Hd']].
    exists d, (apply_set fs d). repeat split; try assumption.
    - now apply Hkeep.
    - apply get_updatedAt_replacement. }
  assert (Hpatch :
    map (get "createdAt") (items (snd (patchItem id reqBody e st)))
    = map (get "createdAt") (items st)
    /\ (status (fst (patchItem id reqBody e st)) = 200 ->
        exists d d',
          List.find (has_id (ObjectId_new id)) (items st) = Some d
          /\ List.find (has_id (ObjectId_new id))
               (items (snd (patchItem id reqBody e st))) = Some d'
          /\ get "createdAt" d' = get "createdAt" d
          /\ get "updatedAt" d' = VDate (clock e (reads st)))).
  { destruct (validatePatchFields reqBody) as [r|] eqn:Hv.
    { rewrite (patchItem_rejected _ _ _ e st Hid Hv). cbn.
      split; [reflexivity|].
      rewrite (validatePatchFields_status _ _ Hv). discriminate. }
    destruct (fault e (List.length (calls st))) eqn:Hf.
    { unfold patchItem, try_catch.
      rewrite (validateId_valid _ Hid), Hv.
      unfold bind, new_Date, updateOne, attempt, ret. cbn. rewrite Hf. cbn.
      split; [reflexivity|discriminate]. }
    rewrite (patchItem_run _ _ _ _ Hid Hv Hf). cbn zeta. cbn [fst snd items].
    set (fs := set "updatedAt" (VDate (clock e (reads st))) reqBody).
    assert (Hkeep : forall k, ~ In k (keys fs) ->
                    forall d, get k (apply_set fs d) = get k d)
      by (intros k Hk d; now apply get_apply_set_other).
    assert (Hc : ~ In "createdAt" (keys fs)).
    { intros Hin. apply (patchData_keys _ _ _ Hv) in Hin.
      cbn in Hin. (forget_driver; intuition discriminate). }
    assert (Hi : ~ In "_id" (keys fs)).
    { intros Hin. apply (patchData_keys _ _ _ Hv) in Hin.
      cbn in Hin. (forget_driver; intuition discriminate). }
    split; [apply update_first_map; now apply Hkeep|].
    destruct (snd (update_first (has_id (ObjectId_new id)) (apply_set fs)
                     (items st)) =? 0)%nat eqn:En; [discriminate|].
    intros _. apply Nat.eqb_neq in En.
    destruct (update_first_outcome _ fs (items st)
                (fun d => has_id_apply_set _ fs d Hi) En) as [d [Hd Hd']].
    exists d, (apply_set fs d). repeat split; try assumption.
    - now apply Hkeep.
    - now apply get_updatedAt_patchData. }
  (forget_driver; tauto).
Qed.

(** C8: deleting an existing item by a well-formed identifier gives 204
    with no body, and deleting the same identifier again at once gives 404
    "Item not found" (the store answering both calls, identifiers unique in
    the collection). *)
Theorem delete_twice_204_then_404 (id : string) (e : env) (st : state)
    (d : obj) :
  ObjectId_isValid id = true ->
  unique_ids (items st) ->
  List.find (has_id (ObjectId_new id)) (items st) = Some d ->
  fault e (List.length (calls st)) = false ->
  fault e (S (List.length (calls st))) = false ->
  fst (deleteItem id e st) = mkResponse 204 None
  /\ fst (deleteItem id e (snd (deleteItem id e st)))
     = json 404 (error_body "Item not found").
Proof.
  intros Hid Hu Hd Hf1 Hf2.
  rewrite (deleteItem_run _ _ _ Hid Hf1). cbn zeta. cbn [fst snd].
  rewrite (delete_first_found _ _ _ Hd). cbn [Nat.eqb].
  split; [reflexivity|].
  rewrite deleteItem_run; try assumption.
  - cbn zeta. cbn [fst snd items].
    rewrite (delete_first_missed _ _ (delete_first_unique _ _ Hu)).
    reflexivity.
  - cbn [calls]. rewrite length_app. cbn [List.length].
    now rewrite Nat.add_1_r.
Qed.

(** C4 (as amended): a valid create (the store answering, the generated
    identifier unused and in canonical form) is answered 201 with that
    identifier, and fetching the identifier at once gives 200 with the
    stored document: the submitted name, price and category, the submitted
    description or the empty string when it is absent or null, and
    [createdAt] and [updatedAt] each stamped from its own clock reading.
    Nothing else of the request body is stored. *)
Theorem created_item_fetched (reqBody : obj) (e : env) (st : state) :
  validateRequiredFields reqBody = None ->
  fault e (List.length (calls st)) = false ->
  fault e (S (List.length (calls st))) = false ->
  existsb (has_id (fresh e (List.length (calls st)))) (items st) = false ->
  ObjectId_isValid (fresh e (List.length (calls st))) = true ->
  ObjectId_new (fresh e (List.length (calls st)))
  = fresh e (List.length (calls st)) ->
  fst (postItem reqBody e st)
  = json 201 (VObj [("message", VStr "Item created");
                    ("id", VObjectId (fresh e (List.length (calls st))))])
  /\ fst (getItem (fresh e (List.length (calls st))) e
            (snd (postItem reqBody e st)))
     = json 200
         (VObj [("_id", VObjectId (fresh e (List.length (calls st))));
                ("name", get "name" reqBody);
                ("price", get "price" reqBody);
                ("category", get "category" reqBody);
                ("description",
                 nullish (get "description" reqBody) (VStr ""));
                ("createdAt", VDate (clock e (reads st)));
                ("updatedAt", VDate (clock e (S (reads st))))]).
Proof.
  intros Hv Hf1 Hf2 Hfresh Hvalid Hcanon.
  rewrite (postItem_run _ _ _ Hv Hf1 Hfresh). cbn zeta. cbn [fst snd].
  split; [reflexivity|].
  rewrite getItem_run; try assumption.
  - cbn [fst items]. rewrite Hcanon.
    rewrite (find_app_new _ _ _ Hfresh).
    + reflexivity.
    + unfold has_id, created_item. cbn. apply String.eqb_refl.
  - cbn [calls]. rewrite length_app. cbn [List.length].
    now rewrite Nat.add_1_r.
Qed.

Lemma validatePatchFields_description (reqBody : obj) :
  validatePatchFields reqBody = None ->
  get "description" reqBody = VUndefined
  \/ typeof (get "description" reqBody) = "string".
Proof.
  intros H.
  destruct (negb (is_undefined (get "description" reqBody))
            && negb (String.eqb (typeof (get "description" reqBody)) "string"))
    eqn:Ed.
  - exfalso. unfold validatePatchFields in H. rewrite Ed in H.
    repeat match type of H with
           | context [if ?b then _ else _] => destruct b
           end; discriminate.
  - apply andb_false_iff in Ed. destruct Ed as [Ed|Ed].
    + left. apply negb_false_iff in Ed.
      destruct (get "description" reqBody); try discriminate. reflexivity.
    + right. apply negb_false_iff in Ed. now apply String.eqb_eq.
Qed.

(** C9: create and full replace do not look at the type of [description].
    Once the three required fields pass validation (and the store answers),
    create is answered 201 and full replace of an existing item 200, and the
    stored [description] is the submitted value, whatever its type, or the
    empty string when it is absent or null. Partial update answers 400 to
    every body whose [description] is present and not a string, and leaves
    the state alone. *)
Theorem description_checked_only_by_patch (id : string) (reqBody : obj)
    (e : env) (st : state) :
  (validateRequiredFields reqBody = None ->
   fault e (List.length (calls st)) = false ->
   existsb (has_id (fresh e (List.length (calls st)))) (items st) = false ->
   status (fst (postItem reqBody e st)) = 201
   /\ exists d,
        items (snd (postItem reqBody e st)) = items st ++ [d]
        /\ get "description" d
           = nullish (get "description" reqBody) (VStr ""))
  /\ (ObjectId_isValid id = true ->
      validateRequiredFields reqBody = None ->
      fault e (List.length (calls st)) = false ->
      (exists d0, List.find (has_id (ObjectId_new id)) (items st) = Some d0) ->
      status (fst (putItem id reqBody e st)) = 200
      /\ exists d,
           List.find (has_id (ObjectId_new id))
             (items (snd (putItem id reqBody e st))) = Some d
           /\ get "description" d
              = nullish (get "description" reqBody) (VStr ""))
  /\ (get "description" reqBody <> VUndefined ->
      typeof (get "description" reqBody) <> "string" ->
      status (fst (patchItem id reqBody e st)) = 400
      /\ snd (patchItem id reqBody e st) = st).
Proof.
  split; [|split].
  - intros Hv Hf Hfresh.
    rewrite (postItem_run _ _ _ Hv Hf Hfresh). cbn zeta. cbn [fst snd items].
    split; [reflexivity|]. eexists. split; reflexivity.
  - intros Hid Hv Hf [d0 Hd0].
    rewrite (putItem_run _ _ _ _ Hid Hv Hf). cbn zeta. cbn [fst snd items].
    set (fs := replacement reqBody (clock e (reads st))).
    assert (Hi : ~ In "_id" (keys fs)) by (cbn; (forget_driver; intuition discriminate)).
    destruct (update_first_found _ (apply_set fs) _ _
                (fun d => has_id_apply_set _ fs d Hi) Hd0) as [Hn Hfound].
    rewrite Hn. split; [reflexivity|].
    exists (apply_set fs d0). split; [assumption|].
    apply get_description_replacement.
  - intros Hpresent Htype.
    destruct (ObjectId_isValid id) eqn:Hid.
    + destruct (validatePatchFields reqBody) as [r|] eqn:Hv.
      * rewrite (patchItem_rejected _ _ _ e st Hid Hv). cbn.
        split; [exact (validatePatchFields_status _ _ Hv)|reflexivity].
      * destruct (validatePatchFields_description _ Hv); contradiction.
    + rewrite (patchItem_malformed id reqBody e st Hid).
      split; reflexivity.
Qed.

Lemma update_first_Forall2 (R : obj -> obj -> Prop) (p : obj -> bool)
    (f : obj -> obj) (c : list obj) :
  (forall d, R d d) -> (forall d, R d (f d)) ->
  Forall2 R c (fst (update_first p f c)).
Proof.
  intros Hrefl Hf. induction c as [|d rest IH]; simpl; [constructor|].
  destruct (p d); simpl.
  - constructor; [apply Hf|]. clear IH.
    induction rest; constructor; auto.
  - destruct (update_first p f rest) as [rest' n]. simpl in *.
    constructor; [apply Hrefl|exact IH].
Qed.

Lemma Forall2_same (R : obj -> obj -> Prop) (c : list obj) :
  (forall d, R d d) -> Forall2 R c c.
Proof. intros H. induction c; constructor; auto. Qed.

(** C10: create and full replace ignore every body key outside name,
    price, category, description. The response and the state they leave are
    those of the same request without these keys, so the keys cause no
    error; a created document holds the seven fields of the service and no
    other; a full replace adds no key to a stored document beyond the five
    it sets. Partial update, in contrast, answers 400 to a body with such a
    key and leaves the state alone. *)
Theorem unknown_keys_ignored_by_create_and_replace (id : string)
    (reqBody : obj) (e : env) (st : state) :
  postItem reqBody e st = postItem (known_fields reqBody) e st
  /\ putItem id reqBody e st = putItem id (known_fields reqBody) e st
  /\ (items (snd (postItem reqBody e st)) = items st
      \/ exists d,
           items (snd (postItem reqBody e st)) = items st ++ [d]
           /\ keys d = ["_id"; "name"; "price"; "category"; "description";
                        "createdAt"; "updatedAt"])
  /\ Forall2
       (fun d d' =>
          forall k, In k (keys d') ->
            In k (keys d)
            \/ In k ["name"; "price"; "category"; "description"; "updatedAt"])
       (items st) (items (snd (putItem id reqBody e st)))
  /\ ((exists k, In k (keys reqBody) /\ ~ In k allowed) ->
      status (fst (patchItem id reqBody e st)) = 400
      /\ snd (patchItem id reqBody e st) = st).
Proof.
  split; [|split; [|split; [|split]]].
  - unfold postItem.
    rewrite !get_known_fields by (cbn; (forget_driver; tauto)). reflexivity.
  - unfold putItem.
    rewrite !get_known_fields by (cbn; (forget_driver; tauto)). reflexivity.
  - unfold postItem, try_catch. rewrite validateRequiredFields_picked.
    destruct (validateRequiredFields reqBody); [now left|].
    unfold bind, new_Date, insertOne, attempt, ret. cbn.
    destruct (fault e (List.length (calls st))); [now left|].
    destruct (existsb _ (items st)); [now left|].
    right. eexists. split; reflexivity.
  - set (R := fun d d' : obj =>
                forall k, In k (keys d') ->
                  In k (keys d)
                  \/ In k ["name"; "price"; "category"; "description";
                           "updatedAt"]).
    assert (Hrefl : forall d, R d d) by (intros d k Hk; now left).
    destruct (ObjectId_isValid id) eqn:Hid.
    2:{ rewrite (putItem_malformed id reqBody e st Hid).
        now apply Forall2_same. }
    destruct (validateRequiredFields reqBody) as [r|] eqn:Hv.
    { rewrite (putItem_rejected _ _ _ e st Hid Hv). now apply Forall2_same. }
    destruct (fault e (List.length (calls st))) eqn:Hf.
    { unfold putItem, try_catch.
      rewrite (validateId_valid _ Hid), validateRequiredFields_picked, Hv.
      unfold bind, new_Date, updateOne, attempt, ret. cbn. rewrite Hf.
      now apply Forall2_same. }
    rewrite (putItem_run _ _ _ _ Hid Hv Hf). cbn zeta. cbn [snd items].
    apply update_first_Forall2; [exact Hrefl|].
    intros d k Hk. apply keys_apply_set in Hk. exact Hk.
  - intros Hex.
    destruct (ObjectId_isValid id) eqn:Hid.
    + rewrite (patchItem_rejected _ _ _ e st Hid
                 (validatePatchFields_unknown _ Hex)).
      split; reflexivity.
    + rewrite (patchItem_malformed id reqBody e st Hid).
      split; reflexivity.
Qed.

(** ** Sorting *)

Section Sorting.

Variable le : obj -> obj -> bool.
Hypothesis le_total : forall a b, le a b = false -> le b a = true.

Lemma insert_by_Permutation (d : obj) (l : list obj) :
  Permutation (d :: l) (insert_by le d l).
Proof.
  induction l as [|h t IH]; simpl; [reflexivity|].
  destruct (le d h); [reflexivity|].
  rewrite perm_swap. now constructor.
Qed.

Lemma sort_by_Permutation (l : list obj) : Permutation l (sort_by le l).
Proof.
  induction l as [|d t IH]; simpl; [constructor|].
  rewrite <- insert_by_Permutation. now constructor.
Qed.

Lemma insert_by_HdRel (a d : obj) (l : list obj) :
  le a d = true ->
  HdRel (fun x y => le x y = true) a l ->
  HdRel (fun x y => le x y = true) a (insert_by le d l).
Proof.
  intros Had Hl. destruct l as [|h t]; simpl.
  - now constructor.
  - destruct (le d h); constructor; [assumption|now inversion Hl].
Qed.

Lemma insert_by_Sorted (d : obj) (l : list obj) :
  Sorted (fun x y => le x y = true) l ->
  Sorted (fun x y => le x y = true) (insert_by le d l).
Proof using le_total.
  induction l as [|h t IH]; simpl; intros Hs.
  - repeat constructor.
  - destruct (le d h) eqn:E.
    + constructor; [assumption|now constructor].
    + inversion Hs as [|h' t' Ht Hh]; subst.
      constructor; [now apply IH|].
      apply insert_by_HdRel; [now apply le_total|assumption].
Qed.

Lemma sort_by_Sorted (l : list obj) :
  Sorted (fun x y => le x y = true) (sort_by le l).
Proof using le_total.
  induction l as [|d t IH]; simpl; [constructor|].
  now apply insert_by_Sorted.
Qed.

End Sorting.

Lemma num_le_total (x y : float) : num_le x y = false -> num_le y x = true.
Proof.
  unfold num_le.
  destruct (PrimFloat.is_nan x) eqn:Ex; [discriminate|].
  destruct (PrimFloat.is_nan y) eqn:Ey; [reflexivity|].
  now apply leb_total.
Qed.

Lemma key_le_total (a b : value) : key_le a b = false -> key_le b a = true.
Proof.
  destruct a, b; cbn; try discriminate; try reflexivity.
  apply num_le_total.
Qed.

Lemma Sorted_Forall_impl (R R' : obj -> obj -> Prop) (P : obj -> Prop)
    (l : list obj) :
  (forall a b, P a -> P b -> R a b -> R' a b) ->
  Forall P l -> Sorted R l -> Sorted R' l.
Proof.
  intros Himp HP Hs. induction Hs as [|a l Hs IH Hhd]; [constructor|].
  inversion HP as [|a' l' Pa Pl]; subst.
  constructor; [now apply IH|].
  destruct Hhd as [|b l Hab]; constructor.
  inversion Pl; subst. now apply Himp.
Qed.

Lemma Sorted_map (R : obj -> obj -> Prop) (f : obj -> obj) (l : list obj) :
  Sorted (fun a b => R (f a) (f b)) l -> Sorted R (map f l).
Proof.
  intros Hs. induction Hs as [|a l Hs IH Hhd]; [constructor|].
  simpl. constructor; [assumption|].
  destruct Hhd; simpl; now constructor.
Qed.

(** ** Listing *)

Lemma filter_matches_all (c : list obj) :
  List.filter (matches (mkFilter None None)) c = c.
Proof.
  induction c as [|d t IH]; simpl; [reflexivity|]. now rewrite IH.
Qed.

Lemma getItems_run (q : query) (e : env) (st : state) :
  fault e (List.length (calls st)) = false ->
  getItems q e st
  = (json 200 (VObj [("count", VNum (number_of_nat (List.length (items st))));
                     ("items", VArr (map VObj (items st)))]),
     logged (Find Items (mkFilter None None) [] []) st).
Proof.
  intros Hf. unfold getItems, try_catch, bind, find_toArray, attempt, ret.
  rewrite Hf. cbn [coll logged items sort_docs get is_number project].
  now rewrite filter_matches_all, map_id.
Qed.

(** What the two filter terms of the list request select. *)
Lemma matches_category_minPrice (X : string) (b : float) (d : obj) :
  PrimFloat.is_nan b = false ->
  scalar_fields d ->
  matches (mkFilter (Some X) (Some b)) d = true ->
  get "category" d = VStr X
  /\ exists x, get "price" d = VNum x /\ PrimFloat.leb b x = true.
Proof.
  intros Hb [Hsc Hsp]. unfold matches, field_matches.
  cbn [category_eq price_gte].
  intros H. apply andb_true_iff in H. destruct H as [Hc Hp]. split.
  - destruct (get "category" d); try discriminate.
    cbn in Hc. rewrite orb_false_r in Hc.
    apply String.eqb_eq in Hc. now subst.
  - destruct (get "price" d); try discriminate.
    cbn in Hp. rewrite Hb, orb_false_r in Hp. now eexists.
Qed.

(** The projection built for [fields=name,price]. *)
Lemma included_name_price (k : string) :
  included [("_id", VNum 0%float); ("name", VNum 1%float);
            ("price", VNum 1%float)] k = true
  <-> k = "name" \/ k = "price".
Proof.
  unfold included. cbn [get].
  destruct (String.eqb k "_id") eqn:E0.
  - apply String.eqb_eq in E0. subst. cbn. split; [discriminate|].
    intros [H|H]; discriminate.
  - destruct (String.eqb k "name") eqn:E1.
    + apply String.eqb_eq in E1. subst. cbn. (forget_driver; tauto).
    + destruct (String.eqb k "price") eqn:E2.
      * apply String.eqb_eq in E2. subst. cbn. (forget_driver; tauto).
      * cbn. split; [discriminate|].
        intros [->| ->]; cbn in *; discriminate.
Qed.

Lemma getProducts_run (X : string) (e : env) (st : state) :
  X <> "" ->
  fault e (List.length (calls st)) = false ->
  fst (getProducts (list_query X) e st)
  = let pr := [("_id", VNum 0%float); ("name", VNum 1%float);
               ("price", VNum 1%float)] in
    let docs :=
      map (project pr)
        (sort_by (fun a b => key_le (get "price" a) (get "price" b))
           (List.filter (matches (mkFilter (Some X) (Some (Number "10"))))
              (products st))) in
    Returned
      (json 200 (VObj [("count", VNum (number_of_nat (List.length docs)));
                       ("products", VArr (map VObj docs))])).
Proof.
  intros HX Hf.
  unfold getProducts, list_query. cbn [category minPrice sort fields].
  rewrite (empty_string_test X HX).
  unfold bind, find_toArray, attempt, ret. rewrite Hf. reflexivity.
Qed.

Lemma project_keys (pr d : obj) (k : string) :
  pr <> [] -> In k (keys (project pr d)) -> included pr k = true.
Proof.
  intros Hne. unfold project. destruct pr as [|p0 pr']; [contradiction|].
  unfold keys. rewrite in_map_iff. intros [[k0 v0] [Hk Hin]].
  apply filter_In in Hin. cbn in Hk. subst. now destruct Hin.
Qed.

Lemma get_project (pr d : obj) (k : string) :
  pr <> [] -> included pr k = true -> get k (project pr d) = get k d.
Proof.
  intros Hne Hk. unfold project. destruct pr as [|p0 pr']; [contradiction|].
  now apply (get_filter_keys (included (p0 :: pr'))).
Qed.

(** C1 (as amended): on [GET /api/products] of the legacy service, a list
    request [category=X&minPrice=10&sort=price&fields=name,price] with [X]
    not empty (the store answering, no stored product holding an array as
    category or price) returns 200 with documents that
    each hold no key other than [name] and [price], each the projection of
    a stored product whose category is [X] and whose price is a number at
    least 10, in ascending order of price. [GET /api/items] does not read
    the query string: it returns every stored item, whole, in stored
    order. *)
Theorem products_list_filtered_sorted_projected (X : string) (q : query)
    (e : env) (st : state) :
  X <> "" ->
  Number "10" = 10%float ->
  fault e (List.length (calls st)) = false ->
  Forall scalar_fields (products st) ->
  (exists docs : list obj,
      fst (getProducts (list_query X) e st)
      = Returned
          (json 200
             (VObj [("count", VNum (number_of_nat (List.length docs)));
                    ("products", VArr (map VObj docs))]))
      /\ Forall
           (fun p =>
              (forall k, In k (keys p) -> k = "name" \/ k = "price")
              /\ exists d,
                   In d (products st)
                   /\ get "category" d = VStr X
                   /\ (exists x, get "price" d = VNum x
                                 /\ PrimFloat.leb 10%float x = true)
                   /\ get "name" p = get "name" d
                   /\ get "price" p = get "price" d)
           docs
      /\ Sorted price_le docs)
  /\ fst (getItems q e st)
     = json 200
         (VObj [("count", VNum (number_of_nat (List.length (items st))));
                ("items", VArr (map VObj (items st)))]).
Proof.
  intros HX HN Hf Hsc. split; [|now rewrite getItems_run].
  rewrite (getProducts_run X e st HX Hf). cbn zeta. rewrite HN.
  set (pr := [("_id", VNum 0%float); ("name", VNum 1%float);
              ("price", VNum 1%float)]).
  set (le := fun a b : obj => key_le (get "price" a) (get "price" b)).
  set (l0 := List.filter (matches (mkFilter (Some X) (Some 10%float)))
               (products st)).
  assert (Hpr : pr <> []) by discriminate.
  assert (Hname : included pr "name" = true) by reflexivity.
  assert (Hprice : included pr "price" = true) by reflexivity.
  assert (Hsel : forall d, In d (sort_by le l0) ->
            In d (products st)
            /\ get "category" d = VStr X
            /\ exists x, get "price" d = VNum x
                         /\ PrimFloat.leb 10%float x = true).
  { intros d Hd.
    apply (Permutation_in _ (Permutation_sym (sort_by_Permutation le l0)))
      in Hd.
    apply filter_In in Hd. destruct Hd as [Hin Hm].
    split; [assumption|].
    apply (matches_category_minPrice X 10%float d); try assumption.
    - reflexivity.
    - now apply (proj1 (Forall_forall _ _) Hsc). }
  exists (map (project pr) (sort_by le l0)).
  split; [reflexivity|]. split.
  - apply Forall_forall. intros p Hp. apply in_map_iff in Hp.
    destruct Hp as [d [<- Hd]].
    destruct (Hsel d Hd) as [Hin [Hcat Hx]]. split.
    + intros k Hk. apply included_name_price.
      now apply (project_keys pr d).
    + exists d. repeat split; try assumption; now apply get_project.
  - apply Sorted_map.
    apply (Sorted_Forall_impl (fun a b => le a b = true) _
             (fun d => exists x, get "price" d = VNum x
                                 /\ PrimFloat.is_nan x = false)).
    + intros a b [x [Ha Hxn]] [y [Hb Hyn]] Hab.
      exists x, y. rewrite !get_project by assumption.
      repeat split; try assumption.
      unfold le in Hab. rewrite Ha, Hb in Hab. cbn in Hab.
      unfold num_le in Hab. now rewrite Hxn, Hyn in Hab.
    + apply Forall_forall. intros d Hd.
      destruct (Hsel d Hd) as [_ [_ [x [Hx Hle]]]].
      exists x. split; [assumption|]. now apply (leb_not_nan 10%float).
    + apply sort_by_Sorted. intros a b. apply key_le_total.
Qed.

(** ** The store invariant *)

(** Full replace and partial update leave alone every field they do not
    set. *)
Lemma update_frame (k : string) (id : string) (reqBody : obj)
    (e : env) (st : state) :
  ~ In k ["name"; "price"; "category"; "description"; "updatedAt"] ->
  map (get k) (items (snd (putItem id reqBody e st)))
  = map (get k) (items st)
  /\ map (get k) (items (snd (patchItem id reqBody e st)))
     = map (get k) (items st).
Proof.
  intros Hk.
  destruct (ObjectId_isValid id) eqn:Hid.
  2:{ rewrite (putItem_malformed id reqBody e st Hid),
              (patchItem_malformed id reqBody e st Hid).
      now split. }
  split.
  - destruct (validateRequiredFields reqBody) as [r|] eqn:Hv.
    { now rewrite (putItem_rejected _ _ _ e st Hid Hv). }
    destruct (fault e (List.length (calls st))) eqn:Hf.
    { unfold putItem, try_catch.
      rewrite (validateId_valid _ Hid), validateRequiredFields_picked, Hv.
      unfold bind, new_Date, updateOne, attempt, ret. cbn. now rewrite Hf. }
    rewrite (putItem_run _ _ _ _ Hid Hv Hf). cbn zeta. cbn [fst snd items].
    apply update_first_map. intros d. now apply get_apply_set_other.
  - destruct (validatePatchFields reqBody) as [r|] eqn:Hv.
    { now rewrite (patchItem_rejected _ _ _ e st Hid Hv). }
    destruct (fault e (List.length (calls st))) eqn:Hf.
    { unfold patchItem, try_catch.
      rewrite (validateId_valid _ Hid), Hv.
      unfold bind, new_Date, updateOne, attempt, ret. cbn. now rewrite Hf. }
    rewrite (patchItem_run _ _ _ _ Hid Hv Hf). cbn zeta. cbn [fst snd items].
    apply update_first_map. intros d. apply get_apply_set_other.
    intros Hin. apply Hk. now apply (patchData_keys _ _ _ Hv) in Hin.
Qed.

Lemma delete_first_incl (p : obj -> bool) (c : list obj) (d : obj) :
  In d (fst (delete_first p c)) -> In d c.
Proof.
  induction c as [|d0 rest IH]; simpl; [(forget_driver; tauto)|].
  destruct (p d0); simpl; [(forget_driver; tauto)|].
  destruct (delete_first p rest) as [rest' n]. simpl in *.
  intros [H|H]; [now left|right; now apply IH].
Qed.

Lemma delete_first_unique_ids (p : obj -> bool) (c : list obj) :
  unique_ids c -> unique_ids (fst (delete_first p c)).
Proof.
  unfold unique_ids. induction c as [|d0 rest IH]; simpl; [trivial|].
  intros Hnd. inversion Hnd as [|x l Hnotin Hnd']; subst.
  destruct (p d0); simpl; [assumption|].
  pose proof (delete_first_incl p rest) as Hincl.
  destruct (delete_first p rest) as [rest' n]. simpl in *.
  constructor; [|now apply IH].
  intros Hin. apply Hnotin. apply in_map_iff in Hin.
  destruct Hin as [d [Hg Hd]]. rewrite <- Hg. apply in_map. now apply Hincl.
Qed.

Lemma insert_unique_ids (o : oid) (d : obj) (c : list obj) :
  existsb (has_id o) c = false ->
  unique_ids c -> unique_ids (c ++ [("_id", VObjectId o) :: d]).
Proof.
  unfold unique_ids. intros Hfresh Hnd. rewrite map_app. cbn [map get].
  rewrite String.eqb_refl.
  apply NoDup_app; [assumption|repeat constructor; intros []|].
  intros v Hin [Hv|[]]. subst v. apply in_map_iff in Hin.
  destruct Hin as [d0 [Hg Hd0]].
  assert (Hh : has_id o d0 = true)
    by (unfold has_id; rewrite Hg; apply String.eqb_refl).
  assert (He : existsb (has_id o) c = true)
    by (apply existsb_exists; now exists d0).
  congruence.
Qed.

(** X21: every request to the items service leaves identifiers unique in
    the items collection: a create stores its document only under an
    identifier no stored item bears, and a full replace or a partial update
    never writes [_id]. *)
Lemma unique_ids_preserved (id : string) (reqBody : obj) (q : query)
    (e : env) (st : state) :
  unique_ids (items st) ->
  unique_ids (items (snd (getItems q e st)))
  /\ unique_ids (items (snd (getItem id e st)))
  /\ unique_ids (items (snd (postItem reqBody e st)))
  /\ unique_ids (items (snd (putItem id reqBody e st)))
  /\ unique_ids (items (snd (patchItem id reqBody e st)))
  /\ unique_ids (items (snd (deleteItem id e st))).
Proof.
  intros Hu. repeat split.
  - unfold getItems, try_catch, bind, find_toArray, attempt, ret.
    destruct (fault e (List.length (calls st))); exact Hu.
  - unfold getItem, try_catch, validateId.
    destruct (ObjectId_isValid id); cbn [negb]; [|exact Hu].
    unfold bind, findOne, attempt, ret.
    destruct (fault e (List.length (calls st))); [exact Hu|].
    cbn. destruct (List.find _ (items st)); exact Hu.
  - unfold postItem, try_catch.
    destruct (validateRequiredFields _); [exact Hu|].
    unfold bind, new_Date, insertOne, attempt, ret. cbn.
    destruct (fault e (List.length (calls st))); [exact Hu|].
    destruct (existsb _ (items st)) eqn:Hfresh; [exact Hu|].
    cbn. now apply insert_unique_ids.
  - unfold unique_ids.
    destruct (update_frame "_id" id reqBody e st) as [H _];
      [cbn; (forget_driver; intuition discriminate)|].
    now rewrite H.
  - unfold unique_ids.
    destruct (update_frame "_id" id reqBody e st) as [_ H];
      [cbn; (forget_driver; intuition discriminate)|].
    now rewrite H.
  - unfold deleteItem, try_catch, validateId.
    destruct (ObjectId_isValid id); cbn [negb]; [|exact Hu].
    unfold bind, deleteOne, attempt, ret.
    destruct (fault e (List.length (calls st))); [exact Hu|].
    cbn -[delete_first].
    pose proof (delete_first_unique_ids (has_id (ObjectId_new id)) _ Hu) as Hd.
    destruct (delete_first _ (items st)) as [l n]. cbn in *.
    destruct (n =? 0)%nat; exact Hd.
Qed.

(** ** What the validators accept *)

Lemma validateRequiredFields_None (reqBody : obj) :
  validateRequiredFields reqBody = None ->
  missing_field reqBody "name" = false
  /\ missing_field reqBody "price" = false
  /\ missing_field reqBody "category" = false
  /\ typeof (get "name" reqBody) = "string"
  /\ typeof (get "category" reqBody) = "string"
  /\ accepted_price (get "price" reqBody).
Proof.
  unfold validateRequiredFields, REQUIRED_FIELDS.
  change (fun f : string =>
            is_undefined (get f reqBody) || is_null (get f reqBody)
            || is_empty_string (get f reqBody))
    with (missing_field reqBody).
  cbn [List.filter].
  destruct (missing_field reqBody "name");
    destruct (missing_field reqBody "price");
    destruct (missing_field reqBody "category");
    cbn [List.length Nat.ltb Nat.leb]; try discriminate.
  destruct (String.eqb (typeof (get "name" reqBody)) "string") eqn:Tn;
    cbn [negb]; [|discriminate].
  destruct (String.eqb (typeof (get "category" reqBody)) "string") eqn:Tc;
    cbn [negb]; [|discriminate].
  destruct (negb (String.eqb (typeof (get "price" reqBody)) "number")
            || Number_isNaN (get "price" reqBody)
            || lt_number (get "price" reqBody) 0%float) eqn:Tp;
    [discriminate|].
  intros _. apply String.eqb_eq in Tn. apply String.eqb_eq in Tc.
  apply price_test in Tp. repeat split; assumption.
Qed.

Lemma nonempty_string_field (reqBody : obj) (f : string) :
  missing_field reqBody f = false ->
  typeof (get f reqBody) = "string" ->
  exists s, get f reqBody = VStr s /\ s <> "".
Proof.
  unfold missing_field. destruct (get f reqBody); try discriminate.
  cbn. intros Hm _. exists s. split; [reflexivity|].
  now apply String.eqb_neq.
Qed.

Lemma validateRequiredFields_pass (reqBody : obj) (n c : string) :
  get "name" reqBody = VStr n -> n <> "" ->
  get "category" reqBody = VStr c -> c <> "" ->
  accepted_price (get "price" reqBody) ->
  validateRequiredFields reqBody = None.
Proof.
  intros Hn Hne Hc Hce Hp.
  pose proof (proj2 (price_test (get "price" reqBody)) Hp) as Ht.
  unfold validateRequiredFields, REQUIRED_FIELDS.
  cbn [List.filter]. rewrite Hn, Hc.
  cbn [is_undefined is_null is_empty_string orb typeof].
  rewrite (empty_string_test n Hne), (empty_string_test c Hce).
  destruct Hp as [x [Hx Hle]]. rewrite Hx in Ht |- *.
  cbn [is_undefined is_null is_empty_string orb List.length Nat.ltb Nat.leb
       String.eqb Ascii.eqb Bool.eqb negb].
  now rewrite Ht.
Qed.

(** X1: create and full replace accept a body exactly when [name] and
    [category] are non-empty strings and [price] is a number with
    [0 <= price]. *)
Theorem create_accepts_iff (reqBody : obj) :
  validateRequiredFields reqBody = None
  <-> (exists n, get "name" reqBody = VStr n /\ n <> "")
      /\ (exists c, get "category" reqBody = VStr c /\ c <> "")
      /\ accepted_price (get "price" reqBody).
Proof.
  split.
  - intros H. apply validateRequiredFields_None in H.
    destruct H as [Mn [_ [Mc [Tn [Tc Hp]]]]].
    repeat split; try assumption; now apply nonempty_string_field.
  - intros [[n [Hn Hne]] [[c [Hc Hce]] Hp]].
    now apply (validateRequiredFields_pass reqBody n c).
Qed.

Lemma optional_string_iff (v : value) :
  negb (is_undefined v) && negb (String.eqb (typeof v) "string") = false
  <-> optional_string v.
Proof.
  split; [|apply optional_string_test].
  intros H. apply andb_false_iff in H. destruct H as [H|H].
  - left. apply negb_false_iff in H. destruct v; try discriminate. reflexivity.
  - right. apply negb_false_iff in H. now apply String.eqb_eq.
Qed.

Lemma optional_price_iff (v : value) :
  negb (is_undefined v)
  && (negb (String.eqb (typeof v) "number") || Number_isNaN v
      || lt_number v 0%float) = false
  <-> v = VUndefined \/ accepted_price v.
Proof.
  split.
  - intros H. apply andb_false_iff in H. destruct H as [H|H].
    + left. apply negb_false_iff in H. destruct v; try discriminate. reflexivity.
    + right. now apply price_test.
  - intros [->|H]; [reflexivity|].
    apply price_test in H. rewrite H. apply andb_false_r.
Qed.

Lemma filter_unknown_nil (ks : list string) :
  List.filter (fun k => negb (includes allowed k)) ks = []
  <-> forall k, In k ks -> In k allowed.
Proof.
  split.
  - intros H k Hin.
    destruct (in_dec string_dec k allowed) as [Hy|Hn]; [assumption|].
    assert (Hk : In k (List.filter (fun k0 => negb (includes allowed k0)) ks))
      by now apply filter_negb_In.
    rewrite H in Hk. destruct Hk.
  - intros H. induction ks as [|k ks IH]; [reflexivity|].
    cbn [List.filter].
    assert (Hk : includes allowed k = true)
      by (apply includes_In, H; now left).
    rewrite Hk. cbn [negb]. apply IH. intros k0 H0. apply H. now right.
Qed.

Lemma validatePatchFields_iff (reqBody : obj) :
  validatePatchFields reqBody = None
  <-> reqBody <> []
      /\ (forall k, In k (keys reqBody) -> In k allowed)
      /\ optional_string (get "name" reqBody)
      /\ optional_string (get "category" reqBody)
      /\ (get "price" reqBody = VUndefined
          \/ accepted_price (get "price" reqBody))
      /\ optional_string (get "description" reqBody).
Proof.
  unfold validatePatchFields.
  rewrite <- filter_unknown_nil.
  rewrite <- (optional_string_iff (get "name" reqBody)),
          <- (optional_string_iff (get "category" reqBody)),
          <- (optional_string_iff (get "description" reqBody)),
          <- (optional_price_iff (get "price" reqBody)).
  destruct reqBody as [|kv rest].
  { cbn. split; [discriminate|]. intros [H _]. now contradiction H. }
  cbn [keys map List.length Nat.eqb].
  destruct (List.filter (fun k => negb (includes allowed k))
              (fst kv :: map fst rest)) as [|k0 l0].
  2:{ cbn. split; [discriminate|]. intros [_ [H _]]. discriminate. }
  cbn [List.length Nat.ltb Nat.leb].
  destruct (negb (is_undefined (get "name" (kv :: rest)))
            && negb (String.eqb (typeof (get "name" (kv :: rest))) "string")).
  { split; [discriminate|]. intros [_ [_ [H _]]]. discriminate. }
  destruct (negb (is_undefined (get "category" (kv :: rest)))
            && negb (String.eqb (typeof (get "category" (kv :: rest))) "string")).
  { split; [discriminate|]. intros [_ [_ [_ [H _]]]]. discriminate. }
  destruct (negb (is_undefined (get "price" (kv :: rest)))
            && (negb (String.eqb (typeof (get "price" (kv :: rest))) "number")
                || Number_isNaN (get "price" (kv :: rest))
                || lt_number (get "price" (kv :: rest)) 0%float)).
  { split; [discriminate|]. intros [_ [_ [_ [_ [H _]]]]]. discriminate. }
  destruct (negb (is_undefined (get "description" (kv :: rest)))
            && negb (String.eqb (typeof (get "description" (kv :: rest)))
                       "string")).
  { split; [discriminate|]. intros [_ [_ [_ [_ [_ H]]]]]. discriminate. }
  split; [|reflexivity].
  intros _. repeat split; try reflexivity. discriminate.
Qed.

(** X2: partial update accepts a body exactly when it is not empty, all
    its keys are among name, price, category, description, each of name,
    category and description is absent or a string (the empty string
    included), and price is absent or a number with [0 <= price]. *)
Theorem patch_accepts_iff (reqBody : obj) :
  validatePatchFields reqBody = None
  <-> reqBody <> []
      /\ (forall k, In k (keys reqBody) -> In k allowed)
      /\ optional_string (get "name" reqBody)
      /\ optional_string (get "category" reqBody)
      /\ (get "price" reqBody = VUndefined
          \/ accepted_price (get "price" reqBody))
      /\ optional_string (get "description" reqBody).
Proof. apply validatePatchFields_iff. Qed.

(** X3: a body that full replace accepts is accepted by partial update
    too, provided all its keys are among name, price, category,
    description and its description is absent or a string. *)
Theorem replace_valid_is_patch_valid (reqBody : obj) :
  validateRequiredFields reqBody = None ->
  (forall k, In k (keys reqBody) -> In k allowed) ->
  optional_string (get "description" reqBody) ->
  validatePatchFields reqBody = None.
Proof.
  intros Hv Hk Hd. apply validateRequiredFields_None in Hv.
  destruct Hv as [Mn [_ [_ [Tn [Tc Hp]]]]].
  apply validatePatchFields_iff. repeat split; try assumption.
  - intros ->. discriminate.
  - now right.
  - now right.
  - now right.
Qed.

(** ** Failing store calls *)

Lemma getItems_fault (q : query) (e : env) (st : state) :
  fault e (List.length (calls st)) = true ->
  getItems q e st
  = (handleServerError, logged (Find Items (mkFilter None None) [] []) st).
Proof.
  intros Hf. unfold getItems, try_catch, bind, find_toArray, attempt, ret.
  now rewrite Hf.
Qed.

Lemma getItem_fault (id : string) (e : env) (st : state) :
  ObjectId_isValid id = true ->
  fault e (List.length (calls st)) = true ->
  getItem id e st
  = (handleServerError, logged (FindOne Items (ObjectId_new id)) st).
Proof.
  intros Hid Hf. unfold getItem, try_catch.
  rewrite (validateId_valid _ Hid).
  unfold bind, findOne, attempt, ret. now rewrite Hf.
Qed.

Lemma deleteItem_fault (id : string) (e : env) (st : state) :
  ObjectId_isValid id = true ->
  fault e (List.length (calls st)) = true ->
  deleteItem id e st
  = (handleServerError, logged (DeleteOne Items (ObjectId_new id)) st).
Proof.
  intros Hid Hf. unfold deleteItem, try_catch.
  rewrite (validateId_valid _ Hid).
  unfold bind, deleteOne, attempt, ret. now rewrite Hf.
Qed.

Lemma putItem_fault (id : string) (reqBody : obj) (e : env) (st : state) :
  ObjectId_isValid id = true ->
  validateRequiredFields reqBody = None ->
  fault e (List.length (calls st)) = true ->
  putItem id reqBody e st
  = (handleServerError,
     mkState (items st) (products st) (S (reads st))
       (calls st ++ [UpdateOne Items (ObjectId_new id)
                       (replacement reqBody (clock e (reads st)))])).
Proof.
  intros Hid Hv Hf. unfold putItem, try_catch.
  rewrite (validateId_valid _ Hid), validateRequiredFields_picked, Hv.
  unfold bind, new_Date, updateOne, attempt, ret. cbn. now rewrite Hf.
Qed.

Lemma patchItem_fault (id : string) (reqBody : obj) (e : env) (st : state) :
  ObjectId_isValid id = true ->
  validatePatchFields reqBody = None ->
  fault e (List.length (calls st)) = true ->
  patchItem id reqBody e st
  = (handleServerError,
     mkState (items st) (products st) (S (reads st))
       (calls st ++ [UpdateOne Items (ObjectId_new id)
                       (set "updatedAt" (VDate (clock e (reads st)))
                          reqBody)])).
Proof.
  intros Hid Hv Hf. unfold patchItem, try_catch.
  rewrite (validateId_valid _ Hid), Hv.
  unfold bind, new_Date, updateOne, attempt, ret. cbn. now rewrite Hf.
Qed.

(** Create fails when the store call fails or the generated identifier is
    taken. *)
Lemma postItem_fault (reqBody : obj) (e : env) (st : state) :
  validateRequiredFields reqBody = None ->
  fault e (List.length (calls st))
  || existsb (has_id (fresh e (List.length (calls st)))) (items st) = true ->
  postItem reqBody e st
  = (handleServerError,
     mkState (items st) (products st) (S (S (reads st)))
       (calls st
        ++ [InsertOne Items
              (tl (created_item (fresh e (List.length (calls st))) reqBody
                     (clock e (reads st)) (clock e (S (reads st)))))])).
Proof.
  intros Hv Hf. unfold postItem, try_catch.
  rewrite validateRequiredFields_picked, Hv.
  unfold bind, new_Date, insertOne, attempt, ret. cbn.
  destruct (fault e (List.length (calls st))); [reflexivity|].
  cbn in Hf. now rewrite Hf.
Qed.


(** X5: while the store fails, no request succeeds: every response is a
    400 (the request was rejected before the store was reached) or the
    generic 500, and neither collection changes. *)
Theorem store_down_no_success (id : string) (reqBody : obj) (q : query)
    (e : env) (st : state) :
  fault e (List.length (calls st)) = true ->
  refused_or_failed (getItems q e st) st
  /\ refused_or_failed (getItem id e st) st
  /\ refused_or_failed (postItem reqBody e st) st
  /\ refused_or_failed (putItem id reqBody e st) st
  /\ refused_or_failed (patchItem id reqBody e st) st
  /\ refused_or_failed (deleteItem id e st) st.
Proof.
  intros Hf. unfold refused_or_failed. repeat split.
  all: try (rewrite (getItems_fault q _ _ Hf); now (try right)).
  all: try (destruct (ObjectId_isValid id) eqn:Hid;
            [ first [ rewrite (getItem_fault _ _ _ Hid Hf)
                    | rewrite (deleteItem_fault _ _ _ Hid Hf) ];
              now (try right)
            | unfold getItem, deleteItem, try_catch;
              rewrite (validateId_malformed _ Hid); now (try left) ]).
  all: try (destruct (validateRequiredFields reqBody) as [r|] eqn:Hv;
            [ rewrite (postItem_rejected _ _ e st Hv); cbn;
              first [ left; exact (validateRequiredFields_status _ _ Hv)
                    | reflexivity ]
            | rewrite (postItem_fault _ _ _ Hv)
                by (rewrite Hf; reflexivity);
              now (try right) ]).
  all: try (destruct (ObjectId_isValid id) eqn:Hid;
            [ destruct (validateRequiredFields reqBody) as [r|] eqn:Hv;
              [ rewrite (putItem_rejected _ _ _ e st Hid Hv); cbn;
                first [ left; exact (validateRequiredFields_status _ _ Hv)
                      | reflexivity ]
              | rewrite (putItem_fault _ _ _ _ Hid Hv Hf); now (try right) ]
            | rewrite (putItem_malformed id reqBody e st Hid);
              now (try left) ]).
  all: destruct (ObjectId_isValid id) eqn:Hid;
       [ destruct (validatePatchFields reqBody) as [r|] eqn:Hv;
         [ rewrite (patchItem_rejected _ _ _ e st Hid Hv); cbn;
           first [ left; exact (validatePatchFields_status _ _ Hv)
                 | reflexivity ]
         | rewrite (patchItem_fault _ _ _ _ Hid Hv Hf); now (try right) ]
       | rewrite (patchItem_malformed id reqBody e st Hid);
         now (try left) ].
Qed.

(** ** What each handler does to the items collection *)

Lemma getItems_state (q : query) (e : env) (st : state) :
  snd (getItems q e st) = logged (Find Items (mkFilter None None) [] []) st.
Proof.
  destruct (fault e (List.length (calls st))) eqn:Hf.
  - now rewrite (getItems_fault q _ _ Hf).
  - now rewrite (getItems_run q _ _ Hf).
Qed.

Lemma getItem_state (id : string) (e : env) (st : state) :
  snd (getItem id e st) = st
  \/ snd (getItem id e st) = logged (FindOne Items (ObjectId_new id)) st.
Proof.
  destruct (ObjectId_isValid id) eqn:Hid.
  2:{ left. unfold getItem, try_catch.
      now rewrite (validateId_malformed _ Hid). }
  right. destruct (fault e (List.length (calls st))) eqn:Hf.
  - now rewrite (getItem_fault _ _ _ Hid Hf).
  - now rewrite (getItem_run _ _ _ Hid Hf).
Qed.

Lemma postItem_items (reqBody : obj) (e : env) (st : state) :
  items (snd (postItem reqBody e st)) = items st
  \/ (validateRequiredFields reqBody = None
      /\ existsb (has_id (fresh e (List.length (calls st)))) (items st) = false
      /\ items (snd (postItem reqBody e st))
         = items st
           ++ [created_item (fresh e (List.length (calls st))) reqBody
                 (clock e (reads st)) (clock e (S (reads st)))]).
Proof.
  destruct (validateRequiredFields reqBody) as [r|] eqn:Hv.
  { left. now rewrite (postItem_rejected _ _ e st Hv). }
  destruct (fault e (List.length (calls st))
            || existsb (has_id (fresh e (List.length (calls st))))
                 (items st)) eqn:Hf.
  - left. now rewrite (postItem_fault _ _ _ Hv Hf).
  - apply orb_false_iff in Hf. destruct Hf as [Hf Hfresh].
    right. rewrite (postItem_run _ _ _ Hv Hf Hfresh). now repeat split.
Qed.

Lemma putItem_items (id : string) (reqBody : obj) (e : env) (st : state) :
  items (snd (putItem id reqBody e st)) = items st
  \/ (validateRequiredFields reqBody = None
      /\ items (snd (putItem id reqBody e st))
         = fst (update_first (has_id (ObjectId_new id))
                  (apply_set (replacement reqBody (clock e (reads st))))
                  (items st))).
Proof.
  destruct (ObjectId_isValid id) eqn:Hid.
  2:{ left. now rewrite (putItem_malformed id reqBody e st Hid). }
  destruct (validateRequiredFields reqBody) as [r|] eqn:Hv.
  { left. now rewrite (putItem_rejected _ _ _ e st Hid Hv). }
  destruct (fault e (List.length (calls st))) eqn:Hf.
  - left. now rewrite (putItem_fault _ _ _ _ Hid Hv Hf).
  - right. rewrite (putItem_run _ _ _ _ Hid Hv Hf). now split.
Qed.

Lemma patchItem_items (id : string) (reqBody : obj) (e : env) (st : state) :
  items (snd (patchItem id reqBody e st)) = items st
  \/ (validatePatchFields reqBody = None
      /\ items (snd (patchItem id reqBody e st))
         = fst (update_first (has_id (ObjectId_new id))
                  (apply_set (set "updatedAt" (VDate (clock e (reads st)))
                                reqBody))
                  (items st))).
Proof.
  destruct (ObjectId_isValid id) eqn:Hid.
  2:{ left. now rewrite (patchItem_malformed id reqBody e st Hid). }
  destruct (validatePatchFields reqBody) as [r|] eqn:Hv.
  { left. now rewrite (patchItem_rejected _ _ _ e st Hid Hv). }
  destruct (fault e (List.length (calls st))) eqn:Hf.
  - left. now rewrite (patchItem_fault _ _ _ _ Hid Hv Hf).
  - right. rewrite (patchItem_run _ _ _ _ Hid Hv Hf). now split.
Qed.

Lemma deleteItem_items (id : string) (e : env) (st : state) :
  items (snd (deleteItem id e st)) = items st
  \/ items (snd (deleteItem id e st))
     = fst (delete_first (has_id (ObjectId_new id)) (items st)).
Proof.
  destruct (ObjectId_isValid id) eqn:Hid.
  2:{ left. unfold deleteItem, try_catch.
      now rewrite (validateId_malformed _ Hid). }
  destruct (fault e (List.length (calls st))) eqn:Hf.
  - left. now rewrite (deleteItem_fault _ _ _ Hid Hf).
  - right. now rewrite (deleteItem_run _ _ _ Hid Hf).
Qed.

Lemma patchData_no_id (reqBody : obj) (v : value) :
  validatePatchFields reqBody = None ->
  ~ In "_id" (keys (set "updatedAt" v reqBody)).
Proof.
  intros Hv Hin. apply (patchData_keys _ _ _ Hv) in Hin.
  cbn in Hin. (forget_driver; intuition discriminate).
Qed.

Lemma replacement_no_id (reqBody : obj) (t : Z) :
  ~ In "_id" (keys (replacement reqBody t)).
Proof. cbn. (forget_driver; intuition discriminate). Qed.

(** ** Reads *)

(** X6: the read handlers change no document and do not read the clock:
    after [GET /api/items], [GET /api/items/:id], [GET /api/products] and
    [GET /api/products/:id], both collections and the count of clock
    readings are what they were. *)
Theorem reads_change_nothing (id : string) (q : query) (e : env) (st : state) :
  same_data (snd (getItems q e st)) st
  /\ same_data (snd (getItem id e st)) st
  /\ same_data (snd (getProducts q e st)) st
  /\ same_data (snd (getProduct id e st)) st.
Proof.
  unfold same_data. split; [|split; [|split]].
  - rewrite getItems_state. now repeat split.
  - destruct (getItem_state id e st) as [-> | ->]; now repeat split.
  - unfold getProducts, bind, find_toArray, attempt, ret.
    destruct (fault e (List.length (calls st))); now repeat split.
  - unfold getProduct.
    destruct (ObjectId_isValid id); cbn [negb]; [|now repeat split].
    unfold bind, findOne, attempt, ret.
    destruct (fault e (List.length (calls st))); [now repeat split|].
    cbn. destruct (List.find _ (products st)); now repeat split.
Qed.

(** ** Items that are not there *)

(** X7: a well-formed identifier that no stored item bears gets 404 "Item
    not found" from get and delete, and from full replace and partial
    update once the body passes validation (the store answering); the
    items are left as they were. *)
Theorem unknown_item_404 (id : string) (reqBody : obj) (e : env) (st : state) :
  ObjectId_isValid id = true ->
  List.find (has_id (ObjectId_new id)) (items st) = None ->
  fault e (List.length (calls st)) = false ->
  item_not_found (getItem id e st) st
  /\ item_not_found (deleteItem id e st) st
  /\ (validateRequiredFields reqBody = None ->
      item_not_found (putItem id reqBody e st) st)
  /\ (validatePatchFields reqBody = None ->
      item_not_found (patchItem id reqBody e st) st).
Proof.
  intros Hid Hnone Hf. unfold item_not_found. split; [|split; [|split]].
  - rewrite (getItem_run _ _ _ Hid Hf), Hnone. now split.
  - rewrite (deleteItem_run _ _ _ Hid Hf). cbn zeta.
    rewrite (delete_first_missed _ _ Hnone). now split.
  - intros Hv. rewrite (putItem_run _ _ _ _ Hid Hv Hf). cbn zeta.
    rewrite (update_first_missed _ _ _ Hnone). now split.
  - intros Hv. rewrite (patchItem_run _ _ _ _ Hid Hv Hf). cbn zeta.
    rewrite (update_first_missed _ _ _ Hnone). now split.
Qed.

(** ** Writes reach one item *)

Lemma has_id_other (o o' : oid) (d : obj) :
  o' <> o -> has_id o d = true -> has_id o' d = false.
Proof.
  intros Hne H. apply has_id_true in H. unfold has_id. rewrite H.
  now apply String.eqb_neq.
Qed.

Lemma find_update_first_other (p q : obj -> bool) (f : obj -> obj)
    (c : list obj) :
  (forall d, q (f d) = q d) ->
  (forall d, p d = true -> q d = false) ->
  List.find q (fst (update_first p f c)) = List.find q c.
Proof.
  intros Hq Hpq. induction c as [|d rest IH]; simpl; [reflexivity|].
  destruct (p d) eqn:Ep; simpl.
  - now rewrite Hq, (Hpq d Ep).
  - destruct (update_first p f rest) as [rest' n]. simpl in *.
    now rewrite IH.
Qed.

Lemma find_delete_first_other (p q : obj -> bool) (c : list obj) :
  (forall d, p d = true -> q d = false) ->
  List.find q (fst (delete_first p c)) = List.find q c.
Proof.
  intros Hpq. induction c as [|d rest IH]; simpl; [reflexivity|].
  destruct (p d) eqn:Ep; simpl.
  - now rewrite (Hpq d Ep).
  - destruct (delete_first p rest) as [rest' n]. simpl in *.
    now rewrite IH.
Qed.

Lemma find_app_other (q : obj -> bool) (c : list obj) (d : obj) :
  q d = false -> List.find q (c ++ [d]) = List.find q c.
Proof.
  intros Hq. induction c as [|d0 rest IH]; simpl.
  - now rewrite Hq.
  - destruct (q d0); [reflexivity|exact IH].
Qed.

(** X8: a write reaches no item but the one it names. Looking up any other
    identifier gives the same document after a full replace, a partial
    update or a delete as before it, whatever the outcome of the request;
    and after a create, for any identifier but the generated one. *)
Theorem other_items_untouched (id : string) (reqBody : obj)
    (e : env) (st : state) (o' : oid) :
  (o' <> ObjectId_new id ->
   List.find (has_id o') (items (snd (putItem id reqBody e st)))
   = List.find (has_id o') (items st)
   /\ List.find (has_id o') (items (snd (patchItem id reqBody e st)))
      = List.find (has_id o') (items st)
   /\ List.find (has_id o') (items (snd (deleteItem id e st)))
      = List.find (has_id o') (items st))
  /\ (o' <> fresh e (List.length (calls st)) ->
      List.find (has_id o') (items (snd (postItem reqBody e st)))
      = List.find (has_id o') (items st)).
Proof.
  split.
  - intros Hne. split; [|split].
    + destruct (putItem_items id reqBody e st) as [-> | [_ ->]];
        [reflexivity|].
      apply find_update_first_other.
      * intros d. apply has_id_apply_set, replacement_no_id.
      * intros d. now apply has_id_other.
    + destruct (patchItem_items id reqBody e st) as [-> | [Hv ->]];
        [reflexivity|].
      apply find_update_first_other.
      * intros d. now apply has_id_apply_set, patchData_no_id.
      * intros d. now apply has_id_other.
    + destruct (deleteItem_items id e st) as [-> | ->]; [reflexivity|].
      apply find_delete_first_other. intros d. now apply has_id_other.
  - intros Hne.
    destruct (postItem_items reqBody e st) as [-> | [_ [_ ->]]];
      [reflexivity|].
    apply find_app_other. unfold has_id, created_item. cbn.
    now apply String.eqb_neq.
Qed.

(** ** Round trips *)

(** With distinct keys, [$set] gives each listed field its listed value. *)
Lemma get_apply_set_in (k : string) (fs d : obj) :
  NoDup (keys fs) -> In k (keys fs) -> get k (apply_set fs d) = get k fs.
Proof.
  unfold apply_set. revert d.
  induction fs as [|[k' v'] rest IH]; intros d Hnd Hin; [destruct Hin|].
  cbn [keys map fst] in Hnd, Hin. inversion Hnd as [|x l Hnotin Hnd']; subst.
  cbn [fold_left fst snd get].
  destruct (String.eqb k k') eqn:E.
  - apply String.eqb_eq in E. subst k'.
    fold (apply_set rest (set k v' d)).
    rewrite get_apply_set_other by exact Hnotin. apply get_set_same.
  - destruct Hin as [Heq|Hin].
    + subst k'. now rewrite String.eqb_refl in E.
    + now apply IH.
Qed.

Lemma replacement_NoDup (reqBody : obj) (t : Z) :
  NoDup (keys (replacement reqBody t)).
Proof.
  cbn. repeat constructor; cbn; (forget_driver; intuition discriminate).
Qed.

Lemma length_logged (c : call) (st : state) :
  List.length (calls (logged c st)) = S (List.length (calls st)).
Proof.
  cbn [logged calls]. rewrite length_app. cbn [List.length].
  apply Nat.add_1_r.
Qed.

(** X9: a full replace answered 200, followed at once by a get of the
    same identifier: the get returns the stored document, whose name,
    price and category are the submitted ones, whose description is the
    submitted one or the empty string when it is absent or null, whose
    [updatedAt] is the clock reading of the replace, and whose every other
    field ([_id] and [createdAt] among them) is what it was. *)
Theorem replace_then_get (id : string) (reqBody : obj) (e : env) (st : state)
    (d : obj) :
  ObjectId_isValid id = true ->
  validateRequiredFields reqBody = None ->
  List.find (has_id (ObjectId_new id)) (items st) = Some d ->
  fault e (List.length (calls st)) = false ->
  fault e (S (List.length (calls st))) = false ->
  fst (putItem id reqBody e st)
  = json 200 (VObj [("message", VStr "Item fully updated")])
  /\ exists d',
       fst (getItem id e (snd (putItem id reqBody e st))) = json 200 (VObj d')
       /\ get "name" d' = get "name" reqBody
       /\ get "price" d' = get "price" reqBody
       /\ get "category" d' = get "category" reqBody
       /\ get "description" d'
          = nullish (get "description" reqBody) (VStr "")
       /\ get "updatedAt" d' = VDate (clock e (reads st))
       /\ forall k,
            ~ In k ["name"; "price"; "category"; "description"; "updatedAt"] ->
            get k d' = get k d.
Proof.
  intros Hid Hv Hd Hf1 Hf2.
  rewrite (putItem_run _ _ _ _ Hid Hv Hf1). cbn zeta. cbn [fst snd].
  set (fs := replacement reqBody (clock e (reads st))).
  destruct (update_first_found _ (apply_set fs) _ _
              (fun d0 => has_id_apply_set _ fs d0 (replacement_no_id _ _)) Hd)
    as [Hn Hfound].
  rewrite Hn. split; [reflexivity|].
  exists (apply_set fs d). split.
  - rewrite getItem_run; try assumption.
    + cbn [items]. now rewrite Hfound.
    + cbn [calls]. rewrite length_app. cbn [List.length].
      now rewrite Nat.add_1_r.
  - assert (Hin : forall k, In k (keys fs) ->
                  get k (apply_set fs d) = get k fs)
      by (intros k Hk; apply get_apply_set_in;
          [apply replacement_NoDup|exact Hk]).
    repeat split.
    + apply (Hin "name"). cbn. (forget_driver; tauto).
    + apply (Hin "price"). cbn. (forget_driver; tauto).
    + apply (Hin "category"). cbn. (forget_driver; tauto).
    + apply (Hin "description"). cbn. (forget_driver; tauto).
    + apply (Hin "updatedAt"). cbn. (forget_driver; tauto).
    + intros k Hk. now apply get_apply_set_other.
Qed.

(** X10: a partial update answered 200, followed at once by a get of the
    same identifier: the get returns the stored document, in which every
    field of the request body has the submitted value, [updatedAt] is the
    clock reading of the update, and every other field is what it was. *)
Theorem patch_then_get (id : string) (reqBody : obj) (e : env) (st : state)
    (d : obj) :
  ObjectId_isValid id = true ->
  validatePatchFields reqBody = None ->
  NoDup (keys reqBody) ->
  List.find (has_id (ObjectId_new id)) (items st) = Some d ->
  fault e (List.length (calls st)) = false ->
  fault e (S (List.length (calls st))) = false ->
  fst (patchItem id reqBody e st)
  = json 200 (VObj [("message", VStr "Item partially updated")])
  /\ exists d',
       fst (getItem id e (snd (patchItem id reqBody e st)))
       = json 200 (VObj d')
       /\ (forall k, In k (keys reqBody) -> get k d' = get k reqBody)
       /\ get "updatedAt" d' = VDate (clock e (reads st))
       /\ forall k,
            ~ In k (keys reqBody) -> k <> "updatedAt" -> get k d' = get k d.
Proof.
  intros Hid Hv Hnd Hd Hf1 Hf2.
  rewrite (patchItem_run _ _ _ _ Hid Hv Hf1). cbn zeta. cbn [fst snd].
  set (fs := set "updatedAt" (VDate (clock e (reads st))) reqBody).
  destruct (update_first_found _ (apply_set fs) _ _
              (fun d0 => has_id_apply_set _ fs d0 (patchData_no_id _ _ Hv)) Hd)
    as [Hn Hfound].
  rewrite Hn. split; [reflexivity|].
  assert (Hu : ~ In "updatedAt" (keys reqBody)).
  { intros Hin. apply (validatePatchFields_keys _ Hv) in Hin.
    cbn in Hin. (forget_driver; intuition discriminate). }
  exists (apply_set fs d). split.
  - rewrite getItem_run; try assumption.
    + cbn [items]. now rewrite Hfound.
    + cbn [calls]. rewrite length_app. cbn [List.length].
      now rewrite Nat.add_1_r.
  - unfold fs. rewrite (set_absent _ _ _ Hu), apply_set_snoc.
    split; [|split].
    + intros k Hk. rewrite get_set_other by (intros ->; contradiction).
      now apply get_apply_set_in.
    + apply get_set_same.
    + intros k Hk Hne. rewrite get_set_other by exact Hne.
      now apply get_apply_set_other.
Qed.

Lemma delete_first_length (p : obj -> bool) (c : list obj) (d : obj) :
  List.find p c = Some d ->
  S (List.length (fst (delete_first p c))) = List.length c.
Proof.
  induction c as [|d0 rest IH]; simpl; [discriminate|].
  destruct (p d0); [reflexivity|].
  intros H. destruct (delete_first p rest) as [rest' n]. simpl in *.
  now rewrite IH.
Qed.

(** X11: a delete answered 204 removes one item, the one it names: a get
    of the same identifier at once gives 404 "Item not found", and the
    collection holds one item fewer. *)
Theorem delete_then_get (id : string) (e : env) (st : state) (d : obj) :
  ObjectId_isValid id = true ->
  unique_ids (items st) ->
  List.find (has_id (ObjectId_new id)) (items st) = Some d ->
  fault e (List.length (calls st)) = false ->
  fault e (S (List.length (calls st))) = false ->
  fst (deleteItem id e st) = mkResponse 204 None
  /\ fst (getItem id e (snd (deleteItem id e st)))
     = json 404 (error_body "Item not found")
  /\ S (List.length (items (snd (deleteItem id e st))))
     = List.length (items st).
Proof.
  intros Hid Hu Hd Hf1 Hf2.
  rewrite (deleteItem_run _ _ _ Hid Hf1). cbn zeta. cbn [fst snd items].
  rewrite (delete_first_found _ _ _ Hd). cbn [Nat.eqb].
  split; [reflexivity|]. split.
  - rewrite getItem_run; try assumption.
    + cbn [items]. now rewrite (delete_first_unique _ _ Hu).
    + cbn [calls]. rewrite length_app. cbn [List.length].
      now rewrite Nat.add_1_r.
  - now apply (delete_first_length _ _ d).
Qed.

(** ** The typing invariant of stored items *)

Lemma json_body_get (o : obj) (k : string) :
  json_body o -> In k (keys o) -> get k o <> VUndefined.
Proof.
  intros [_ Hv]. induction o as [|[k' v'] rest IH]; [intros []|].
  inversion Hv as [|x l Hx Hl]; subst. cbn [keys map fst get].
  destruct (String.eqb k k') eqn:E; [intros _; exact Hx|].
  intros [Heq|Hin].
  - subst k'. now rewrite String.eqb_refl in E.
  - now apply IH.
Qed.

Lemma update_first_Forall (P : obj -> Prop) (p : obj -> bool)
    (f : obj -> obj) (c : list obj) :
  (forall d, P d -> P (f d)) ->
  Forall P c -> Forall P (fst (update_first p f c)).
Proof.
  intros Hf Hc. induction Hc as [|d rest Hd Hrest IH]; simpl; [constructor|].
  destruct (p d); simpl.
  - constructor; [now apply Hf|assumption].
  - destruct (update_first p f rest) as [rest' n]. simpl in *.
    now constructor.
Qed.

Lemma replacement_well_typed (reqBody : obj) (t : Z) (d : obj) :
  validateRequiredFields reqBody = None ->
  well_typed_item (apply_set (replacement reqBody t) d).
Proof.
  intros Hv. apply validateRequiredFields_None in Hv.
  destruct Hv as [_ [_ [_ [Tn [Tc Hp]]]]].
  assert (Hin : forall k, In k (keys (replacement reqBody t)) ->
                get k (apply_set (replacement reqBody t) d)
                = get k (replacement reqBody t))
    by (intros k Hk; apply get_apply_set_in;
        [apply replacement_NoDup|exact Hk]).
  unfold well_typed_item.
  rewrite (Hin "name"), (Hin "category"), (Hin "price")
    by (cbn; (forget_driver; tauto)).
  now repeat split.
Qed.

(** A field after a partial update: the submitted value when the body has
    the key, the stored value otherwise. *)
Lemma get_patched (reqBody : obj) (v : value) (d : obj) (k : string) :
  validatePatchFields reqBody = None ->
  NoDup (keys reqBody) ->
  k <> "updatedAt" ->
  (In k (keys reqBody) ->
   get k (apply_set (set "updatedAt" v reqBody) d) = get k reqBody)
  /\ (~ In k (keys reqBody) ->
      get k (apply_set (set "updatedAt" v reqBody) d) = get k d).
Proof.
  intros Hv Hnd Hne.
  assert (Hu : ~ In "updatedAt" (keys reqBody)).
  { intros Hin. apply (validatePatchFields_keys _ Hv) in Hin.
    cbn in Hin. (forget_driver; intuition discriminate). }
  rewrite (set_absent _ _ _ Hu), apply_set_snoc.
  rewrite get_set_other by exact Hne. split.
  - intros Hin. now apply get_apply_set_in.
  - intros Hin. now apply get_apply_set_other.
Qed.

Lemma patch_well_typed (reqBody : obj) (v : value) (d : obj) :
  validatePatchFields reqBody = None ->
  json_body reqBody ->
  well_typed_item d ->
  well_typed_item (apply_set (set "updatedAt" v reqBody) d).
Proof.
  intros Hv Hj [Dn [Dc Dp]].
  pose proof (proj1 (validatePatchFields_iff reqBody) Hv)
    as [_ [_ [On [Oc [Op _]]]]].
  assert (Hstr : forall k,
            k <> "updatedAt" ->
            optional_string (get k reqBody) ->
            typeof (get k d) = "string" ->
            typeof (get k (apply_set (set "updatedAt" v reqBody) d))
            = "string").
  { intros k Hne Ho Hd.
    destruct (get_patched reqBody v d k Hv (proj1 Hj) Hne) as [Hin Hout].
    destruct (in_dec string_dec k (keys reqBody)) as [Hk|Hk].
    - rewrite (Hin Hk). destruct Ho as [Ho|Ho]; [|exact Ho].
      now contradiction (json_body_get _ _ Hj Hk).
    - now rewrite (Hout Hk). }
  split; [|split].
  - apply Hstr; [discriminate|assumption|assumption].
  - apply Hstr; [discriminate|assumption|assumption].
  - destruct (get_patched reqBody v d "price" Hv (proj1 Hj))
      as [Hin Hout]; [discriminate|].
    destruct (in_dec string_dec "price" (keys reqBody)) as [Hk|Hk].
    + rewrite (Hin Hk). destruct Op as [Op|Op]; [|exact Op].
      now contradiction (json_body_get _ _ Hj Hk).
    + now rewrite (Hout Hk).
Qed.

(** X12: the items collection keeps its typing. If every stored item has
    a string name, a string category and a price that is a number with
    [0 <= price], then so has every stored item after any request to the
    items service, for a body as the JSON parser delivers it. *)
Theorem typed_fields_invariant (id : string) (reqBody : obj) (q : query)
    (e : env) (st : state) :
  json_body reqBody ->
  Forall well_typed_item (items st) ->
  Forall well_typed_item (items (snd (getItems q e st)))
  /\ Forall well_typed_item (items (snd (getItem id e st)))
  /\ Forall well_typed_item (items (snd (postItem reqBody e st)))
  /\ Forall well_typed_item (items (snd (putItem id reqBody e st)))
  /\ Forall well_typed_item (items (snd (patchItem id reqBody e st)))
  /\ Forall well_typed_item (items (snd (deleteItem id e st))).
Proof.
  intros Hj Hall. repeat split.
  - now rewrite getItems_state.
  - now destruct (getItem_state id e st) as [-> | ->].
  - destruct (postItem_items reqBody e st) as [-> | [Hv [_ ->]]];
      [assumption|].
    apply Forall_app. split; [assumption|].
    constructor; [|constructor].
    apply validateRequiredFields_None in Hv.
    destruct Hv as [_ [_ [_ [Tn [Tc Hp]]]]]. now repeat split.
  - destruct (putItem_items id reqBody e st) as [-> | [Hv ->]];
      [assumption|].
    apply update_first_Forall; [|assumption].
    intros d _. now apply replacement_well_typed.
  - destruct (patchItem_items id reqBody e st) as [-> | [Hv ->]];
      [assumption|].
    apply update_first_Forall; [|assumption].
    intros d Hd. now apply patch_well_typed.
  - destruct (deleteItem_items id e st) as [-> | ->]; [assumption|].
    apply Forall_forall. intros d Hd. apply delete_first_incl in Hd.
    now apply (proj1 (Forall_forall _ _) Hall).
Qed.

(** ** The legacy products service *)

(** X13: the legacy create tests presence by truthiness and nothing else.
    It answers 400 "Missing required fields", the state untouched, exactly
    when name, price or category is falsy, so a price of 0 is refused;
    any other body (the store answering, the generated identifier unused)
    is answered 201 and stored as the document of its identifier, name,
    price and category, whatever their types. *)
Theorem legacy_create_by_truthiness (reqBody : obj) (e : env) (st : state) :
  (fst (postProduct reqBody e st)
   = Returned (json 400 (error_body "Missing required fields"))
   <-> truthy_value (get "name" reqBody)
       && truthy_value (get "price" reqBody)
       && truthy_value (get "category" reqBody) = false)
  /\ (truthy_value (get "name" reqBody)
      && truthy_value (get "price" reqBody)
      && truthy_value (get "category" reqBody) = false ->
      snd (postProduct reqBody e st) = st)
  /\ (truthy_value (get "name" reqBody)
      && truthy_value (get "price" reqBody)
      && truthy_value (get "category" reqBody) = true ->
      fault e (List.length (calls st)) = false ->
      existsb (has_id (fresh e (List.length (calls st)))) (products st)
      = false ->
      fst (postProduct reqBody e st)
      = Returned
          (json 201
             (VObj [("message", VStr "Product created");
                    ("id", VObjectId (fresh e (List.length (calls st))))]))
      /\ products (snd (postProduct reqBody e st))
         = products st
           ++ [[("_id", VObjectId (fresh e (List.length (calls st))));
                ("name", get "name" reqBody);
                ("price", get "price" reqBody);
                ("category", get "category" reqBody)]]
      /\ items (snd (postProduct reqBody e st)) = items st).
Proof.
  unfold postProduct.
  destruct (truthy_value (get "name" reqBody));
    destruct (truthy_value (get "price" reqBody));
    destruct (truthy_value (get "category" reqBody));
    cbn [negb orb andb].
  2-8: (split; [split; reflexivity|]; split; [reflexivity|discriminate]).
  unfold bind, insertOne, attempt, ret. split; [|split].
  - split; [|discriminate].
    destruct (fault e (List.length (calls st))); [discriminate|].
    cbn. destruct (existsb _ (products st)); discriminate.
  - discriminate.
  - intros _ Hf Hfresh. rewrite Hf. cbn. rewrite Hfresh.
    now repeat split.
Qed.

(** X14: the legacy get by identifier answers 400 "Invalid product id" to
    a malformed identifier without calling the store; for a well-formed
    one (the store answering) it answers 404 "Product not found" when no
    product bears it, and 200 with the whole document otherwise. *)
Theorem legacy_get_product (id : string) (e : env) (st : state) :
  (ObjectId_isValid id = false ->
   getProduct id e st
   = (Returned (json 400 (error_body "Invalid product id")), st))
  /\ (ObjectId_isValid id = true ->
      fault e (List.length (calls st)) = false ->
      (List.find (has_id (ObjectId_new id)) (products st) = None ->
       fst (getProduct id e st)
       = Returned (json 404 (error_body "Product not found")))
      /\ (forall d,
             List.find (has_id (ObjectId_new id)) (products st) = Some d ->
             fst (getProduct id e st) = Returned (json 200 (VObj d)))).
Proof.
  unfold getProduct. split.
  - now intros ->.
  - intros -> Hf. cbn [negb].
    unfold bind, findOne, attempt, ret. rewrite Hf. cbn. split.
    + now intros ->.
    + now intros d ->.
Qed.

(** X15: the legacy handlers catch nothing. When the store call fails,
    the list, the get of a well-formed identifier and the create of a body
    with truthy fields throw: they send no response, whereas the items
    service answers 500. *)
Theorem legacy_failure_escapes (id : string) (reqBody : obj) (q : query)
    (e : env) (st : state) :
  fault e (List.length (calls st)) = true ->
  fst (getProducts q e st) = Thrown
  /\ (ObjectId_isValid id = true -> fst (getProduct id e st) = Thrown)
  /\ (truthy_value (get "name" reqBody)
      && truthy_value (get "price" reqBody)
      && truthy_value (get "category" reqBody) = true ->
      fst (postProduct reqBody e st) = Thrown)
  /\ fst (getItems q e st) = json 500 (error_body "Internal server error").
Proof.
  intros Hf. split; [|split; [|split]].
  - unfold getProducts, bind, find_toArray, attempt, ret. now rewrite Hf.
  - intros Hid. unfold getProduct. rewrite Hid. cbn [negb].
    unfold bind, findOne, attempt, ret. now rewrite Hf.
  - intros Ht. unfold postProduct.
    apply andb_true_iff in Ht. destruct Ht as [Ht Hc].
    apply andb_true_iff in Ht. destruct Ht as [Hn Hp].
    rewrite Hn, Hp, Hc. cbn [negb orb].
    unfold bind, insertOne, attempt, ret. now rewrite Hf.
  - now rewrite (getItems_fault q _ _ Hf).
Qed.

(** ** The legacy list, for any query *)










(** X18: without parameters in force (category, minPrice and fields
    absent or empty, sort other than [price]), the legacy list returns
    every stored product, whole, in stored order. *)
Theorem products_list_unfiltered (q : query) (e : env) (st : state) :
  truthy (category q) = false ->
  truthy (minPrice q) = false ->
  truthy (fields q) = false ->
  sort q <> Some "price" ->
  fault e (List.length (calls st)) = false ->
  fst (getProducts q e st)
  = Returned
      (json 200
         (VObj [("count", VNum (number_of_nat (List.length (products st))));
                ("products", VArr (map VObj (products st)))])).
Proof.
  intros Hc Hm Hfs Hs Hf.
  unfold getProducts, bind, find_toArray, attempt, ret. rewrite Hf.
  assert (Ec : match category q with
               | Some c => if negb (String.eqb c "") then Some c else None
               | None => None
               end = None).
  { destruct (category q) as [c|]; [|reflexivity]. cbn in Hc. now rewrite Hc. }
  assert (Em : match minPrice q with
               | Some m =>
                   if negb (String.eqb m "") then Some (Number m) else None
               | None => None
               end = None).
  { destruct (minPrice q) as [m|]; [|reflexivity]. cbn in Hm. now rewrite Hm. }
  assert (Ef : match fields q with
               | Some fs0 =>
                   if negb (String.eqb fs0 "")
                   then fold_left
                          (fun acc field => set field (VNum 1%float) acc)
                          (split "," fs0) (set "_id" (VNum 0%float) [])
                   else []
               | None => []
               end = []).
  { destruct (fields q) as [fs0|]; [|reflexivity]. cbn in Hfs.
    now rewrite Hfs. }
  assert (Es : match sort q with
               | Some s =>
                   if String.eqb s "price" then [("price", VNum 1%float)]
                   else []
               | None => []
               end = []).
  { destruct (sort q) as [s|]; [|reflexivity].
    destruct (String.eqb s "price") eqn:E; [|reflexivity].
    apply String.eqb_eq in E. subst s. now contradiction Hs. }
  rewrite Ec, Em, Ef, Es.
  cbn [fst coll logged products sort_docs get is_number project].
  now rewrite filter_matches_all, map_id.
Qed.

(** ** Create, then list *)

(** X19: a create answered 201, followed at once by a list: the list
    returns the items there were and, last, the created one, and its count
    is one more. *)
Theorem create_then_list (reqBody : obj) (q : query) (e : env) (st : state) :
  validateRequiredFields reqBody = None ->
  fault e (List.length (calls st)) = false ->
  fault e (S (List.length (calls st))) = false ->
  existsb (has_id (fresh e (List.length (calls st)))) (items st) = false ->
  fst (getItems q e (snd (postItem reqBody e st)))
  = json 200
      (VObj [("count", VNum (number_of_nat (S (List.length (items st)))));
             ("items",
              VArr (map VObj (items st)
                    ++ [VObj (created_item (fresh e (List.length (calls st)))
                                reqBody (clock e (reads st))
                                (clock e (S (reads st))))]))]).
Proof.
  intros Hv Hf1 Hf2 Hfresh.
  rewrite (postItem_run _ _ _ Hv Hf1 Hfresh). cbn zeta. cbn [snd].
  rewrite getItems_run.
  - cbn [fst items]. rewrite length_app, map_app. cbn [List.length map].
    now rewrite Nat.add_1_r.
  - cbn [calls]. rewrite length_app. cbn [List.length].
    now rewrite Nat.add_1_r.
Qed.

(** ** The order of the timestamps *)

Lemma stamped_before_later (e : env) (n n' : nat) (d : obj) :
  (n <= n')%nat -> stamped_before e n d -> stamped_before e n' d.
Proof.
  intros Hle [t [u [Hc [Hu [Htu Hk]]]]]. exists t, u.
  repeat split; try assumption.
  intros k Hn. apply Hk. lia.
Qed.

Lemma stamped_before_updated (e : env) (n n' : nat) (fs d : obj) :
  (n <= n')%nat ->
  ~ In "createdAt" (keys fs) ->
  get "updatedAt" (apply_set fs d) = VDate (clock e n) ->
  stamped_before e n d -> stamped_before e n' (apply_set fs d).
Proof.
  intros Hle Hc Hu [t [u [Hct [_ [_ Hk]]]]].
  exists t, (clock e n). repeat split.
  - now rewrite get_apply_set_other.
  - exact Hu.
  - apply Hk. lia.
  - intros k Hn. apply Hk. lia.
Qed.

Lemma update_first_Forall_step (P Q : obj -> Prop) (p : obj -> bool)
    (f : obj -> obj) (c : list obj) :
  (forall d, P d -> Q d) -> (forall d, P d -> Q (f d)) ->
  Forall P c -> Forall Q (fst (update_first p f c)).
Proof.
  intros Hpq Hf Hc. induction Hc as [|d rest Hd Hrest IH]; simpl;
    [constructor|].
  destruct (p d); simpl.
  - constructor; [now apply Hf|].
    apply Forall_forall. intros d0 Hd0. apply Hpq.
    now apply (proj1 (Forall_forall _ _) Hrest).
  - destruct (update_first p f rest) as [rest' n]. simpl in *.
    constructor; [now apply Hpq|assumption].
Qed.

Lemma reads_grow (id : string) (reqBody : obj) (q : query)
    (e : env) (st : state) :
  (reads st <= reads (snd (getItems q e st)))%nat
  /\ (reads st <= reads (snd (getItem id e st)))%nat
  /\ (reads st <= reads (snd (deleteItem id e st)))%nat.
Proof.
  split; [|split].
  - now rewrite getItems_state.
  - now destruct (getItem_state id e st) as [-> | ->].
  - destruct (ObjectId_isValid id) eqn:Hid.
    2:{ unfold deleteItem, try_catch.
        now rewrite (validateId_malformed _ Hid). }
    destruct (fault e (List.length (calls st))) eqn:Hf.
    + now rewrite (deleteItem_fault _ _ _ Hid Hf).
    + now rewrite (deleteItem_run _ _ _ Hid Hf).
Qed.

(** X20: with a clock that never goes back, the timestamps of the items
    stay in order. If every stored item has [createdAt <= updatedAt] and
    was created no later than the coming clock readings, then the same
    holds after any request to the items service. *)
Theorem timestamps_stay_ordered (id : string) (reqBody : obj) (q : query)
    (e : env) (st : state) :
  monotone e ->
  Forall (stamped_before e (reads st)) (items st) ->
  (forall r : response * state,
      r = getItems q e st \/ r = getItem id e st
      \/ r = postItem reqBody e st \/ r = putItem id reqBody e st
      \/ r = patchItem id reqBody e st \/ r = deleteItem id e st ->
      Forall (stamped_before e (reads (snd r))) (items (snd r))).
Proof.
  intros Hmono Hall.
  assert (Hlater : forall n', (reads st <= n')%nat ->
            Forall (stamped_before e n') (items st)).
  { intros n' Hle. apply Forall_forall. intros d Hd.
    apply (stamped_before_later e (reads st)); [exact Hle|].
    now apply (proj1 (Forall_forall _ _) Hall). }
  destruct (reads_grow id reqBody q e st) as [G1 [G2 G6]].
  intros r [-> | [-> | [-> | [-> | [-> | ->]]]]].
  - rewrite getItems_state in *. now apply Hlater.
  - destruct (getItem_state id e st) as [E | E]; rewrite E in *;
      now apply Hlater.
  - destruct (validateRequiredFields reqBody) as [r|] eqn:Hv.
    { rewrite (postItem_rejected _ _ e st Hv). now apply Hlater. }
    destruct (fault e (List.length (calls st))
              || existsb (has_id (fresh e (List.length (calls st))))
                   (items st)) eqn:Hf.
    + rewrite (postItem_fault _ _ _ Hv Hf). cbn [snd items reads].
      apply Hlater. lia.
    + apply orb_false_iff in Hf. destruct Hf as [Hf Hfresh].
      rewrite (postItem_run _ _ _ Hv Hf Hfresh). cbn zeta.
      cbn [snd items reads].
      apply Forall_app. split; [apply Hlater; lia|].
      constructor; [|constructor].
      exists (clock e (reads st)), (clock e (S (reads st))).
      repeat split.
      * apply Hmono. lia.
      * intros k Hk. apply Hmono. lia.
  - destruct (ObjectId_isValid id) eqn:Hid.
    2:{ rewrite (putItem_malformed id reqBody e st Hid). now apply Hlater. }
    destruct (validateRequiredFields reqBody) as [r|] eqn:Hv.
    { rewrite (putItem_rejected _ _ _ e st Hid Hv). now apply Hlater. }
    destruct (fault e (List.length (calls st))) eqn:Hf.
    + rewrite (putItem_fault _ _ _ _ Hid Hv Hf). cbn [snd items reads].
      apply Hlater. lia.
    + rewrite (putItem_run _ _ _ _ Hid Hv Hf). cbn zeta.
      cbn [snd items reads].
      apply (update_first_Forall_step (stamped_before e (reads st)));
        [| |exact Hall].
      * intros d. apply stamped_before_later. lia.
      * intros d. apply stamped_before_updated.
        -- lia.
        -- cbn. (forget_driver; intuition discriminate).
        -- apply get_updatedAt_replacement.
  - destruct (ObjectId_isValid id) eqn:Hid.
    2:{ rewrite (patchItem_malformed id reqBody e st Hid). now apply Hlater. }
    destruct (validatePatchFields reqBody) as [r|] eqn:Hv.
    { rewrite (patchItem_rejected _ _ _ e st Hid Hv). now apply Hlater. }
    destruct (fault e (List.length (calls st))) eqn:Hf.
    + rewrite (patchItem_fault _ _ _ _ Hid Hv Hf). cbn [snd items reads].
      apply Hlater. lia.
    + rewrite (patchItem_run _ _ _ _ Hid Hv Hf). cbn zeta.
      cbn [snd items reads].
      apply (update_first_Forall_step (stamped_before e (reads st)));
        [| |exact Hall].
      * intros d. apply stamped_before_later. lia.
      * intros d. apply stamped_before_updated.
        -- lia.
        -- intros Hin. apply (patchData_keys _ _ _ Hv) in Hin.
           cbn in Hin. (forget_driver; intuition discriminate).
        -- now apply get_updatedAt_patchData.
  - destruct (deleteItem_items id e st) as [E | E]; rewrite E.
    + now apply Hlater.
    + apply Forall_forall. intros d Hd. apply delete_first_incl in Hd.
      apply (stamped_before_later e (reads st)); [exact G6|].
      now apply (proj1 (Forall_forall _ _) Hall).
Qed.

End Handlers.

(** * The properties on concrete requests *)

(** ** Requests that separate the documented behaviour from the code *)

(** [GET /api/items] answers the list request for tools of price at least 10
    with every stored item: the ball, a toy of price 5, is returned, whole,
    identifier included. *)
Lemma items_list_ignores_query :
  fst (getItems (list_query "tools") steady shop)
  = json 200 (VObj [("count", VNum 2%float);
                    ("items", VArr [VObj hammer; VObj ball])])
  /\ get "category" ball = VStr "toys"
  /\ get "price" ball = VNum 5%float
  /\ PrimFloat.leb 10%float 5%float = false
  /\ keys ball = ["_id"; "name"; "price"; "category"; "description";
                  "createdAt"; "updatedAt"].
Proof. repeat split; reflexivity. Qed.

(** On [GET /api/products], an empty [category] parameter is no filter at
    all: products of category "tools" are returned for [category=]. *)
Lemma products_empty_category_unfiltered :
  fst (getProducts number_10 (list_query "") steady shop)
  = Returned
      (json 200
         (VObj [("count", VNum 2%float);
                ("products",
                 VArr [VObj [("name", VStr "saw"); ("price", VNum 12%float)];
                       VObj [("name", VStr "hammer");
                             ("price", VNum 25%float)]])]))
  /\ get "category" saw = VStr "tools"
  /\ get "category" hammer = VStr "tools".
Proof. repeat split; reflexivity. Qed.

(** A product filed under two categories, as the legacy create accepts
    it, is returned for each of them: its category is not [X] but an array
    holding [X]. *)
Lemma products_array_category_matched :
  fst (getProducts number_10 (list_query "tools") steady
         (mkState [] [spade] 0 []))
  = Returned
      (json 200
         (VObj [("count", VNum 1%float);
                ("products",
                 VArr [VObj [("name", VStr "spade");
                             ("price", VNum 20%float)]])]))
  /\ get "category" spade = VArr [VStr "tools"; VStr "garden"].
Proof. repeat split; reflexivity. Qed.

(** [+Infinity] (the JSON number [1e999]) is not finite, and both
    validators accept it as a price; create stores it. *)
Lemma infinite_price_accepted :
  PrimFloat.is_finite PrimFloat.infinity = false
  /\ validateRequiredFields
       [("name", VStr "Widget"); ("price", VNum PrimFloat.infinity);
        ("category", VStr "tools")] = None
  /\ validatePatchFields [("price", VNum PrimFloat.infinity)] = None
  /\ fst (postItem
            [("name", VStr "Widget"); ("price", VNum PrimFloat.infinity);
             ("category", VStr "tools")] steady empty_shop)
     = json 201 (VObj [("message", VStr "Item created");
                       ("id", VObjectId id3)]).
Proof. repeat split; reflexivity. Qed.

(** A body whose [name] and [category] both have the wrong type is
    answered with the error of [name] alone: [category] is not named. *)
Lemma first_type_error_only :
  validateRequiredFields
    [("name", VNum 5%float); ("price", VNum 3%float);
     ("category", VBool true)]
  = Some (json 400 (error_body "Field 'name' must be a string"))
  /\ type_invalid
       [("name", VNum 5%float); ("price", VNum 3%float);
        ("category", VBool true)] "category" = true
  /\ names_field (json 400 (error_body "Field 'name' must be a string"))
       "category" = false.
Proof. repeat split; reflexivity. Qed.

(** A valid create with an extra key [color]: the document fetched by the
    returned identifier does not hold it (the clock standing still, its two
    timestamps are equal). *)
Lemma extra_key_not_echoed :
  validateRequiredFields (widget ++ [("color", VStr "red")]) = None
  /\ fst (postItem (widget ++ [("color", VStr "red")]) steady empty_shop)
     = json 201 (VObj [("message", VStr "Item created");
                       ("id", VObjectId id3)])
  /\ fst (getItem hex24 same_id id3 steady
            (snd (postItem (widget ++ [("color", VStr "red")])
                    steady empty_shop)))
     = json 200
         (VObj [("_id", VObjectId id3); ("name", VStr "Widget");
                ("price", VNum 12.5%float); ("category", VStr "tools");
                ("description", VStr "");
                ("createdAt", VDate 1767225600000%Z);
                ("updatedAt", VDate 1767225600000%Z)])
  /\ get "color" (widget ++ [("color", VStr "red")]) = VStr "red".
Proof. repeat split; reflexivity. Qed.

(** The two timestamps of a created item come from two clock readings:
    with a clock that advances between them, they differ. *)
Example timestamps_from_two_readings :
  fst (getItem hex24 same_id id3 ticking (snd (postItem widget ticking empty_shop)))
  = json 200
      (VObj [("_id", VObjectId id3); ("name", VStr "Widget");
             ("price", VNum 12.5%float); ("category", VStr "tools");
             ("description", VStr "");
             ("createdAt", VDate 1767225600000%Z);
             ("updatedAt", VDate 1767225600001%Z)]).
Proof. reflexivity. Qed.

(** ** The properties at work *)

(** The list property on the example shop: the tools of price at least 10,
    saw before hammer. *)
Lemma products_list_witness :
  (exists docs : list obj,
      fst (getProducts number_10 (list_query "tools") steady shop)
      = Returned
          (json 200
             (VObj [("count", VNum (number_of_nat (List.length docs)));
                    ("products", VArr (map VObj docs))]))
      /\ Forall
           (fun p =>
              (forall k, In k (keys p) -> k = "name" \/ k = "price")
              /\ exists d,
                   In d (products shop)
                   /\ get "category" d = VStr "tools"
                   /\ (exists x, get "price" d = VNum x
                                 /\ PrimFloat.leb 10%float x = true)
                   /\ get "name" p = get "name" d
                   /\ get "price" p = get "price" d)
           docs
      /\ Sorted price_le docs)
  /\ fst (getItems (list_query "tools") steady shop)
     = json 200
         (VObj [("count", VNum (number_of_nat (List.length (items shop))));
                ("items", VArr (map VObj (items shop)))]).
Proof.
  apply (products_list_filtered_sorted_projected number_10 "tools"
           (list_query "tools") steady shop).
  - discriminate.
  - reflexivity.
  - reflexivity.
  - repeat constructor.
Defined.

(** The price rule on the widget (price 12.5), for create and for partial
    update. *)
Lemma price_rule_witness :
  (validateRequiredFields widget = None
   <-> accepted_price (get "price" widget))
  /\ (validatePatchFields [("price", VNum 12.5%float)] = None
      <-> accepted_price (get "price" [("price", VNum 12.5%float)])).
Proof.
  split.
  - apply (proj1 (price_accepted_iff_nonnegative_number widget)
             "Widget" "tools").
    + reflexivity.
    + discriminate.
    + reflexivity.
    + discriminate.
  - apply (proj2 (price_accepted_iff_nonnegative_number
                    [("price", VNum 12.5%float)])).
    + discriminate.
    + intros k [<-|[]]. cbn. tauto.
    + now left.
    + now left.
    + now left.
Defined.

(** A body with an empty name and no category: both are listed as
    missing. *)
Lemma validation_error_witness :
  status (json 400
            (VObj [("error", VStr "Missing required fields");
                   ("missing", VArr [VStr "name"; VStr "category"])])) = 400
  /\ (names_field
        (json 400
           (VObj [("error", VStr "Missing required fields");
                  ("missing", VArr [VStr "name"; VStr "category"])]))
        "category" = true
      <-> missing_field [("name", VStr ""); ("price", VNum 5%float)]
            "category" = true).
Proof.
  destruct (validation_error_names
              [("name", VStr ""); ("price", VNum 5%float)]
              (json 400
                 (VObj [("error", VStr "Missing required fields");
                        ("missing", VArr [VStr "name"; VStr "category"])]))
              eq_refl) as [Hs [Hm _]].
  split; [exact Hs|].
  apply Hm.
  - exists "name". split; [now left|reflexivity].
  - right. right. now left.
Defined.

(** Creating the widget in the empty shop and fetching it. *)
Lemma created_item_witness :
  fst (postItem widget steady empty_shop)
  = json 201 (VObj [("message", VStr "Item created");
                    ("id", VObjectId id3)])
  /\ fst (getItem hex24 same_id id3 steady
            (snd (postItem widget steady empty_shop)))
     = json 200
         (VObj [("_id", VObjectId id3); ("name", VStr "Widget");
                ("price", VNum 12.5%float); ("category", VStr "tools");
                ("description", VStr "");
                ("createdAt", VDate 1767225600000%Z);
                ("updatedAt", VDate 1767225600000%Z)]).
Proof.
  exact (created_item_fetched hex24 same_id widget steady empty_shop
           eq_refl eq_refl eq_refl eq_refl eq_refl eq_refl).
Defined.

(** A partial update with the unknown key [color]. *)
Lemma patch_unknown_witness :
  exists invalid : list string,
    (forall k, In k invalid
               <-> In k (keys [("name", VStr "x"); ("color", VStr "red")])
                   /\ ~ In k allowed)
    /\ validatePatchFields [("name", VStr "x"); ("color", VStr "red")]
       = Some (json 400
                 (VObj [("error", VStr "Invalid fields in PATCH");
                        ("invalid", VArr (map VStr invalid));
                        ("allowed",
                         VArr [VStr "name"; VStr "price";
                               VStr "category"; VStr "description"])]))
    /\ forall id e st,
         hex24 id = true ->
         patchItem hex24 same_id id
           [("name", VStr "x"); ("color", VStr "red")] e st
         = (json 400
              (VObj [("error", VStr "Invalid fields in PATCH");
                     ("invalid", VArr (map VStr invalid));
                     ("allowed",
                      VArr [VStr "name"; VStr "price";
                            VStr "category"; VStr "description"])]),
            st).
Proof.
  apply (proj2 (proj2 (patch_empty_and_unknown_fields hex24 same_id))).
  exists "color". split.
  - right. now left.
  - cbn. intuition discriminate.
Defined.

(** The identifier [abc] on the four single-item handlers. *)
Lemma malformed_id_witness :
  getItem hex24 same_id "abc" steady shop
  = (json 400 (error_body "Invalid item id"), shop)
  /\ putItem hex24 same_id "abc" widget steady shop
     = (json 400 (error_body "Invalid item id"), shop)
  /\ patchItem hex24 same_id "abc" widget steady shop
     = (json 400 (error_body "Invalid item id"), shop)
  /\ deleteItem hex24 same_id "abc" steady shop
     = (json 400 (error_body "Invalid item id"), shop).
Proof.
  exact (malformed_id_short_circuits hex24 same_id "abc" widget steady shop
           eq_refl).
Defined.

(** Replacing the hammer by the widget keeps the creation times. *)
Lemma createdAt_witness :
  map (get "createdAt") (items (snd (putItem hex24 same_id id1 widget steady shop)))
  = map (get "createdAt") (items shop)
  /\ exists d d',
       List.find (has_id (same_id id1)) (items shop) = Some d
       /\ List.find (has_id (same_id id1))
            (items (snd (putItem hex24 same_id id1 widget steady shop)))
          = Some d'
       /\ get "createdAt" d' = get "createdAt" d
       /\ get "updatedAt" d' = VDate (clock steady (reads shop)).
Proof.
  destruct (createdAt_left_unchanged hex24 same_id id1 widget steady shop)
    as [H1 [_ [H3 _]]].
  split; [exact H1|]. apply H3. reflexivity.
Defined.

(** Deleting the hammer twice. *)
Lemma delete_twice_witness :
  fst (deleteItem hex24 same_id id1 steady shop) = mkResponse 204 None
  /\ fst (deleteItem hex24 same_id id1 steady
            (snd (deleteItem hex24 same_id id1 steady shop)))
     = json 404 (error_body "Item not found").
Proof.
  apply (delete_twice_204_then_404 hex24 same_id id1 steady shop hammer).
  - reflexivity.
  - unfold unique_ids. cbn. constructor.
    + intros [H|[]]. discriminate.
    + constructor; [intros []|constructor].
  - reflexivity.
  - reflexivity.
  - reflexivity.
Defined.

(** A numeric description: stored by create, refused by partial update. *)
Lemma description_witness :
  (status (fst (postItem (widget ++ [("description", VNum 7%float)])
                  steady empty_shop)) = 201
   /\ exists d,
        items (snd (postItem (widget ++ [("description", VNum 7%float)])
                      steady empty_shop))
        = items empty_shop ++ [d]
        /\ get "description" d
           = nullish (get "description"
                        (widget ++ [("description", VNum 7%float)]))
               (VStr ""))
  /\ (status (fst (patchItem hex24 same_id id1
                     [("description", VNum 7%float)] steady shop)) = 400
      /\ snd (patchItem hex24 same_id id1
                [("description", VNum 7%float)] steady shop) = shop).
Proof.
  split.
  - apply (proj1 (description_checked_only_by_patch hex24 same_id id1
                    (widget ++ [("description", VNum 7%float)])
                    steady empty_shop)); reflexivity.
  - apply (proj2 (proj2 (description_checked_only_by_patch hex24 same_id id1
                           [("description", VNum 7%float)] steady shop)));
      discriminate.
Defined.

(** The key [color]: ignored by create, refused by partial update. *)
Lemma unknown_keys_witness :
  postItem (widget ++ [("color", VStr "red")]) steady empty_shop
  = postItem (known_fields (widget ++ [("color", VStr "red")]))
      steady empty_shop
  /\ status (fst (patchItem hex24 same_id id1
                    (widget ++ [("color", VStr "red")]) steady shop)) = 400
  /\ snd (patchItem hex24 same_id id1
            (widget ++ [("color", VStr "red")]) steady shop) = shop.
Proof.
  destruct (unknown_keys_ignored_by_create_and_replace hex24 same_id id1
              (widget ++ [("color", VStr "red")]) steady empty_shop)
    as [H1 _].
  destruct (unknown_keys_ignored_by_create_and_replace hex24 same_id id1
              (widget ++ [("color", VStr "red")]) steady shop)
    as [_ [_ [_ [_ H5]]]].
  split; [exact H1|]. apply H5.
  exists "color". split.
  - cbn. tauto.
  - cbn. intuition discriminate.
Defined.
(** ** Further properties at work *)

(** The widget, valid for full replace, is valid for partial update. *)
Lemma replace_valid_witness : validatePatchFields widget = None.
Proof.
  apply (replace_valid_is_patch_valid widget).
  - reflexivity.
  - intros k Hk. cbn in Hk. cbn. tauto.
  - now left.
Defined.

(** Every request fails or is refused while the store is down. *)
Lemma store_down_witness :
  refused_or_failed (getItems (list_query "tools") failing shop) shop
  /\ refused_or_failed (getItem hex24 same_id id1 failing shop) shop
  /\ refused_or_failed (postItem widget failing shop) shop
  /\ refused_or_failed (putItem hex24 same_id id1 widget failing shop) shop
  /\ refused_or_failed (patchItem hex24 same_id id1 widget failing shop) shop
  /\ refused_or_failed (deleteItem hex24 same_id id1 failing shop) shop.
Proof.
  exact (store_down_no_success hex24 same_id id1 widget (list_query "tools")
           failing shop eq_refl).
Defined.

(** No item of the shop bears [id3]. *)
Lemma unknown_item_witness :
  item_not_found (getItem hex24 same_id id3 steady shop) shop
  /\ item_not_found (deleteItem hex24 same_id id3 steady shop) shop
  /\ item_not_found (putItem hex24 same_id id3 widget steady shop) shop
  /\ item_not_found (patchItem hex24 same_id id3 widget steady shop) shop.
Proof.
  destruct (unknown_item_404 hex24 same_id id3 widget steady shop
              eq_refl eq_refl eq_refl) as [H1 [H2 [H3 H4]]].
  split; [exact H1|]. split; [exact H2|].
  split; [apply H3|apply H4]; reflexivity.
Defined.

(** Replacing, patching or deleting the hammer leaves the ball alone. *)
Lemma other_items_witness :
  List.find (has_id id2)
    (items (snd (putItem hex24 same_id id1 widget steady shop)))
  = List.find (has_id id2) (items shop)
  /\ List.find (has_id id2)
       (items (snd (patchItem hex24 same_id id1 widget steady shop)))
     = List.find (has_id id2) (items shop)
  /\ List.find (has_id id2)
       (items (snd (deleteItem hex24 same_id id1 steady shop)))
     = List.find (has_id id2) (items shop).
Proof.
  apply (proj1 (other_items_untouched hex24 same_id id1 widget steady shop
                  id2)).
  discriminate.
Defined.

(** Replacing the hammer by the widget, then getting it. *)
Lemma replace_then_get_witness :
  fst (putItem hex24 same_id id1 widget steady shop)
  = json 200 (VObj [("message", VStr "Item fully updated")])
  /\ exists d',
       fst (getItem hex24 same_id id1 steady
              (snd (putItem hex24 same_id id1 widget steady shop)))
       = json 200 (VObj d')
       /\ get "name" d' = get "name" widget
       /\ get "price" d' = get "price" widget
       /\ get "category" d' = get "category" widget
       /\ get "description" d'
          = nullish (get "description" widget) (VStr "")
       /\ get "updatedAt" d' = VDate (clock steady (reads shop))
       /\ forall k,
            ~ In k ["name"; "price"; "category"; "description"; "updatedAt"] ->
            get k d' = get k hammer.
Proof.
  exact (replace_then_get hex24 same_id id1 widget steady shop hammer
           eq_refl eq_refl eq_refl eq_refl eq_refl).
Defined.

(** Patching the price of the hammer, then getting it. *)
Lemma patch_then_get_witness :
  fst (patchItem hex24 same_id id1 [("price", VNum 3%float)] steady shop)
  = json 200 (VObj [("message", VStr "Item partially updated")])
  /\ exists d',
       fst (getItem hex24 same_id id1 steady
              (snd (patchItem hex24 same_id id1 [("price", VNum 3%float)]
                      steady shop)))
       = json 200 (VObj d')
       /\ (forall k, In k (keys [("price", VNum 3%float)]) ->
                     get k d' = get k [("price", VNum 3%float)])
       /\ get "updatedAt" d' = VDate (clock steady (reads shop))
       /\ forall k,
            ~ In k (keys [("price", VNum 3%float)]) -> k <> "updatedAt" ->
            get k d' = get k hammer.
Proof.
  apply (patch_then_get hex24 same_id id1 [("price", VNum 3%float)]
           steady shop hammer); try reflexivity.
  repeat constructor. intros [].
Defined.

(** Deleting the hammer, then getting it. *)
Lemma delete_then_get_witness :
  fst (deleteItem hex24 same_id id1 steady shop) = mkResponse 204 None
  /\ fst (getItem hex24 same_id id1 steady
            (snd (deleteItem hex24 same_id id1 steady shop)))
     = json 404 (error_body "Item not found")
  /\ S (List.length (items (snd (deleteItem hex24 same_id id1 steady shop))))
     = List.length (items shop).
Proof.
  apply (delete_then_get hex24 same_id id1 steady shop hammer);
    try reflexivity.
  unfold unique_ids. cbn. constructor.
  - intros [H|[]]. discriminate.
  - constructor; [intros []|constructor].
Defined.

(** The shop's items are well typed, and stay so when the hammer is
    replaced by the widget. *)
Lemma typed_fields_witness :
  Forall well_typed_item
    (items (snd (putItem hex24 same_id id1 widget steady shop)))
  /\ Forall well_typed_item
       (items (snd (patchItem hex24 same_id id1 widget steady shop))).
Proof.
  assert (Hj : json_body widget).
  { split.
    - cbn. repeat constructor; cbn; intuition discriminate.
    - repeat constructor; discriminate. }
  assert (Hs : Forall well_typed_item (items shop)).
  { repeat constructor; eexists; split; reflexivity. }
  destruct (typed_fields_invariant hex24 same_id id1 widget
              (list_query "tools") steady shop Hj Hs)
    as [_ [_ [_ [H4 [H5 _]]]]].
  split; assumption.
Defined.

(** The legacy create refuses a price of 0 and stores the widget. *)
Lemma legacy_create_witness :
  fst (postProduct
         [("name", VStr "nail"); ("price", VNum 0%float);
          ("category", VStr "tools")] steady shop)
  = Returned (json 400 (error_body "Missing required fields"))
  /\ products (snd (postProduct widget steady empty_shop))
     = products empty_shop
       ++ [[("_id", VObjectId (fresh steady (List.length (calls empty_shop))));
            ("name", get "name" widget);
            ("price", get "price" widget);
            ("category", get "category" widget)]].
Proof.
  split.
  - apply (proj1 (legacy_create_by_truthiness
                    [("name", VStr "nail"); ("price", VNum 0%float);
                     ("category", VStr "tools")] steady shop)).
    reflexivity.
  - apply (proj2 (proj2 (legacy_create_by_truthiness widget steady
                           empty_shop))); reflexivity.
Defined.

(** The legacy get: a malformed identifier, and the hammer. *)
Lemma legacy_get_witness :
  getProduct hex24 same_id "abc" steady shop
  = (Returned (json 400 (error_body "Invalid product id")), shop)
  /\ fst (getProduct hex24 same_id id1 steady shop)
     = Returned (json 200 (VObj hammer)).
Proof.
  split.
  - apply (proj1 (legacy_get_product hex24 same_id "abc" steady shop)).
    reflexivity.
  - apply (proj2 (legacy_get_product hex24 same_id id1 steady shop));
      reflexivity.
Defined.

(** The store down: the legacy handlers throw, the items list answers 500. *)
Lemma legacy_failure_witness :
  fst (getProducts number_10 (list_query "tools") failing shop) = Thrown
  /\ fst (getProduct hex24 same_id id1 failing shop) = Thrown
  /\ fst (postProduct widget failing shop) = Thrown
  /\ fst (getItems (list_query "tools") failing shop)
     = json 500 (error_body "Internal server error").
Proof.
  destruct (legacy_failure_escapes hex24 same_id number_10 id1 widget
              (list_query "tools") failing shop eq_refl)
    as [H1 [H2 [H3 H4]]].
  split; [exact H1|]. split; [apply H2; reflexivity|].
  split; [apply H3; reflexivity|exact H4].
Defined.



(** The list without parameters returns the three products. *)
Lemma products_unfiltered_witness :
  fst (getProducts number_10 (mkQuery None None None None) steady shop)
  = Returned
      (json 200
         (VObj [("count", VNum (number_of_nat (List.length (products shop))));
                ("products", VArr (map VObj (products shop)))])).
Proof.
  apply (products_list_unfiltered number_10 (mkQuery None None None None)
           steady shop); try reflexivity.
  discriminate.
Defined.

(** Creating the widget in the shop, then listing. *)
Lemma create_then_list_witness :
  fst (getItems (list_query "tools") steady
         (snd (postItem widget steady shop)))
  = json 200
      (VObj [("count", VNum (number_of_nat (S (List.length (items shop)))));
             ("items",
              VArr (map VObj (items shop)
                    ++ [VObj (created_item
                                (fresh steady (List.length (calls shop)))
                                widget (clock steady (reads shop))
                                (clock steady (S (reads shop))))]))]).
Proof.
  exact (create_then_list widget (list_query "tools") steady shop
           eq_refl eq_refl eq_refl eq_refl).
Defined.

(** The shop's timestamps are in order under the ticking clock, and stay
    so when the hammer is replaced. *)
Lemma timestamps_witness :
  Forall (stamped_before ticking
            (reads (snd (putItem hex24 same_id id1 widget ticking shop))))
    (items (snd (putItem hex24 same_id id1 widget ticking shop))).
Proof.
  apply (timestamps_stay_ordered hex24 same_id id1 widget
           (list_query "tools") ticking shop).
  - intros a b Hab. unfold ticking. cbn [clock]. lia.
  - repeat constructor;
      exists 1767000000000%Z, 1767000000000%Z;
      (repeat split; try reflexivity; try lia;
       intros k _; unfold ticking; cbn [clock]; lia).
  - right. right. right. now left.
Defined.

(** The shop's identifiers are unique, and stay so after a create. *)
Lemma unique_ids_witness :
  unique_ids (items (snd (postItem widget steady shop))).
Proof.
  assert (Hu : unique_ids (items shop)).
  { unfold unique_ids. cbn. constructor.
    - intros [H|[]]. discriminate.
    - constructor; [intros []|constructor]. }
  destruct (unique_ids_preserved hex24 same_id id1 widget
              (list_query "tools") steady shop Hu) as [_ [_ [H3 _]]].
  exact H3.
Defined.

(** The widget is accepted by create and full replace. *)
Lemma create_accepts_witness : validateRequiredFields widget = None.
Proof.
  apply (proj2 (create_accepts_iff widget)). split; [|split].
  - exists "Widget". split; [reflexivity|discriminate].
  - exists "tools". split; [reflexivity|discriminate].
  - exists 12.5%float. split; reflexivity.
Defined.

(** Partial update accepts an empty name. *)
Lemma patch_accepts_witness : validatePatchFields [("name", VStr "")] = None.
Proof.
  apply (proj2 (patch_accepts_iff [("name", VStr "")])).
  split; [discriminate|]. split.
  - intros k [<-|[]]. cbn. tauto.
  - split; [now right|]. split; [now left|]. split; now left.
Defined.
